(** * pdf-holomask: the occurrence locator, style probe, redaction
      compositor, accounting reporter and overlap-aware text extractor

    A shallow embedding of [app/pdf_processor.py] ([anonymize_pdf]) and of
    [MistralAnalyzer.extract_text_from_pdf] in [app/mistral_analyzer.py].

    Conventions of the embedding.
    - Python [float]s are IEEE binary64 numbers: Rocq's primitive [float].
    - Python [str] is [string]; a character is a code point below 256.
    - A JSON object of the oracle is a record of optional fields; [None] is a
      missing key, and [default] plays the part of [dict.get(key, default)].
    - The PDF library (PyMuPDF, imported as [fitz]) is not part of the
      repository.  Its calls are the operations of the class [Fitz]; a page is
      its content as opened together with the sequence of mutating calls made
      on it so far, so that the order of the calls can be stated.
    - An exception that leaves [anonymize_pdf] is the result [None]. *)

From Stdlib Require Import Floats ZArith Ascii String.
From stdpp Require Import gmap strings list fin_maps pretty.

Set Warnings "-inexact-float".
Local Open Scope string_scope.
Local Open Scope list_scope.
Local Open Scope Z_scope.

(** ** Python strings *)

Module Py.

(** [str.isspace] on one character, for the code points below 256:
    TAB..CR, FS..US, SPACE, NEL and NBSP. *)
Definition isspace (c : ascii) : bool :=
  let n := N_of_ascii c in
  ((9 <=? n) && (n <=? 13) || (28 <=? n) && (n <=? 32)
   || (n =? 133) || (n =? 160))%N.

(** Truth value of a [str]: the empty string is false. *)
Definition truthy (s : string) : bool :=
  match s with EmptyString => false | String _ _ => true end.

(** [s.split()] with no argument: the maximal runs of characters that are
    not whitespace.  [tok] is the run being read. *)
Fixpoint split_from (tok s : string) : list string :=
  match s with
  | EmptyString => if truthy tok then [tok] else []
  | String c s' =>
      if isspace c
      then (if truthy tok then tok :: split_from "" s' else split_from "" s')
      else split_from (tok +:+ String c "") s'
  end.

Definition split (s : string) : list string := split_from "" s.

Fixpoint lstrip (s : string) : string :=
  match s with
  | EmptyString => ""
  | String c s' => if isspace c then lstrip s' else s
  end.

Fixpoint rstrip (s : string) : string :=
  match s with
  | EmptyString => ""
  | String c s' =>
      let r := rstrip s' in
      if isspace c && negb (truthy r) then "" else String c r
  end.

(** [s.strip()] with no argument. *)
Definition strip (s : string) : string := rstrip (lstrip s).

(** [s.replace(old, "")] for a one-character [old]. *)
Fixpoint remove_char (old : ascii) (s : string) : string :=
  match s with
  | EmptyString => ""
  | String c s' =>
      if Ascii.eqb c old then remove_char old s' else String c (remove_char old s')
  end.

(** [sep.join(parts)]. *)
Fixpoint join (sep : string) (parts : list string) : string :=
  match parts with
  | [] => ""
  | [p] => p
  | p :: ps => p +:+ sep +:+ join sep ps
  end.

(** [l[0]] and [l[-1]] of a list that the caller knows to be non-empty. *)
Definition first (l : list string) : string := List.hd "" l.
Definition last (l : list string) : string := List.last l "".

(** An insertion-ordered [dict]: assigning to a key that is present keeps
    the key where it is and replaces its value; a new key goes last. *)
Section Dict.
Context {K V : Type} (eqb : K -> K -> bool).

Fixpoint dict_set (d : list (K * V)) (k : K) (v : V) : list (K * V) :=
  match d with
  | [] => [(k, v)]
  | (k', v') :: d' =>
      if eqb k' k then (k', v) :: d' else (k', v') :: dict_set d' k v
  end.
End Dict.

End Py.

(** ** The data model *)

(** [fitz.Rect]: four coordinates. *)
Record Rect := mkRect { x0 : float; y0 : float; x1 : float; y1 : float }.

(** A span, a line and a block of [page.get_text("dict")].  A span always
    has a [bbox]; the other keys are read with [get]. *)
Record Span := mkSpan {
  span_bbox : Rect;
  span_size : option float;
  span_font : option string;
  span_color : option Z;
  span_text : option string
}.

Record Line := mkLine {
  line_bbox : option Rect;
  line_spans : list Span
}.

(** [block_lines] is [None] for a block without the key ["lines"] (an image
    block). *)
Record Block := mkBlock { block_lines : option (list Line) }.

(** A sensitive element as the oracle reports it; every key may be missing. *)
Record Element := mkElement {
  e_type : option string;
  e_value : option string;
  e_replacement : option string;
  e_page : option Z
}.

(** The style recovered for a match: [span_info]. *)
Record SpanInfo := mkSpanInfo {
  si_font : string;
  si_size : float;
  si_color : Z
}.

(** A value of [text_positions]. *)
Record Info := mkInfo {
  info_rect : Rect;
  info_replacement : string;
  info_span_info : SpanInfo
}.

(** The key [f"{page_num}_{search_text}_{rect.x0}_{rect.y0}"] of
    [text_positions], kept as its four fields.  The rendering is injective:
    the page number is the digits (and sign) before the first underscore and
    the two coordinates are the two underscore-free fields at the end. *)
Record Key := mkKey {
  key_page : Z;
  key_text : string;
  key_x0 : float;
  key_y0 : float
}.

Definition key_eqb (a b : Key) : bool :=
  (key_page a =? key_page b)%Z
  && String.eqb (key_text a) (key_text b)
  && PrimFloat.Leibniz.eqb (key_x0 a) (key_x0 b)
  && PrimFloat.Leibniz.eqb (key_y0 a) (key_y0 b).

(** [key.startswith(f"{page_num}_")]: the decimal rendering of an integer has
    no underscore, so the prefix matches exactly the keys of that page. *)
Definition key_startswith_page (k : Key) (page_num : nat) : bool :=
  (key_page k =? Z.of_nat page_num)%Z.

Abbreviation TextPositions := (list (Key * Info)).

(** An entry of [not_found_elements]. *)
Record NotFound := mkNotFound {
  nf_type : string;
  nf_value : string;
  nf_page : Z;
  nf_replacement : string
}.

(** A font object: [fitz.Font(name)] or the base face [fitz.Font()]. *)
Inductive Font :=
| FontNamed (name : string)
| FontBase.

(** The mutating calls on a page. *)
Inductive PageOp :=
| AddRedactAnnot (rect : Rect)
| ApplyRedactions
| InsertText (point : float * float) (text : string) (fontname : string)
             (fontsize : float) (color : Z)
| WriteText (point : float * float) (text : string) (font : Font)
            (fontsize : float).

(** A page: what the file holds, and the calls made on it since it was
    opened, oldest first. *)
Record Page {Content : Type} := mkPage {
  page_content : Content;
  page_ops : list PageOp
}.
Arguments Page : clear implicits.
Arguments mkPage {Content} _ _.

Definition page_call {Content} (p : Page Content) (op : PageOp) : Page Content :=
  mkPage (page_content p) (page_ops p ++ [op]).

(** The document: its pages and [doc.metadata], a dictionary whose values
    are strings or [None] (as that of the key ["encryption"] of a plain
    file). *)
Record Document {Content : Type} := mkDocument {
  doc_pages : list (Page Content);
  doc_metadata : option (gmap string (option string))
}.
Arguments Document : clear implicits.
Arguments mkDocument {Content} _ _.

(** ** The PDF library *)

Class Fitz (Content : Type) := {
  (** [page.search_for(text)] *)
  search_for : Page Content -> string -> list Rect;
  (** [page.get_text("dict")["blocks"]] *)
  get_text_dict : Page Content -> list Block;
  (** [page.get_text("dict", sort=True)["blocks"]] *)
  get_text_dict_sorted : Page Content -> list Block;
  (** [page.get_fonts(full=True)]: one tuple of entries for each font *)
  get_fonts : Page Content -> list (list string);
  (** does [page.insert_text(point, text, fontname=, fontsize=, color=)]
      raise? *)
  insert_text_raises :
    Page Content -> float * float -> string -> string -> float -> Z -> bool;
  (** does [fitz.Font(name)] raise? *)
  font_raises : string -> bool;
  (** [a.intersects(b)], [a & b] and [a.get_area()] of [fitz.Rect] *)
  rect_intersects : Rect -> Rect -> bool;
  rect_and : Rect -> Rect -> Rect;
  rect_get_area : Rect -> float
}.

(** ** [anonymize_pdf], first pass: the occurrence locator *)

(** A [for] loop whose body sets a result and breaks: the first element for
    which the body yields one. *)
Fixpoint find_first {A B : Type} (f : A -> option B) (l : list A) : option B :=
  match l with
  | [] => None
  | a :: l' => match f a with Some b => Some b | None => find_first f l' end
  end.

(** [element_type in ["Person Name", "Client Name"]] *)
Definition is_name_type (element_type : string) : bool :=
  String.eqb element_type "Person Name" || String.eqb element_type "Client Name".

(** The list [elements_to_search] built for one element. *)
Definition elements_to_search (element_type original_text replacement : string)
  : list (string * string) :=
  let full := [(original_text, replacement)] in
  if is_name_type element_type then
    let name_parts := Py.split original_text in
    let replacement_parts := Py.split replacement in
    if (2 <=? length name_parts)%nat && (2 <=? length replacement_parts)%nat then
      full ++ [(Py.first name_parts, Py.first replacement_parts)]
           ++ [(Py.last name_parts, Py.last replacement_parts)]
    else full
  else full.

(** The size correction of the style probe. *)
Definition actual_size (reported_size visual_height : float) : float :=
  if (reported_size * 1.5 <? visual_height)%float
  then (visual_height * 0.85)%float
  else reported_size.

(** The style used when no span intersects the match. *)
Definition default_span_info : SpanInfo := mkSpanInfo "helv" 10%float 0.

(** [doc[i]] as PyMuPDF defines it: an index not below the page count is an
    [IndexError]; a negative index counts back from the end, the page count
    being added until the index is not negative.  A document without pages
    has no page to count back to. *)
Definition doc_getitem {Content} (pages : list (Page Content)) (i : Z)
  : option (Page Content) :=
  let n := Z.of_nat (length pages) in
  if (n <=? i)%Z then None
  else if (n =? 0)%Z then None
  else pages !! Z.to_nat (i mod n).

Section Locator.
Context {Content : Type} `{F : Fitz Content}.

Definition probe_span (rect : Rect) (span : Span) : option SpanInfo :=
  let span_rect := span_bbox span in
  if rect_intersects span_rect rect then
    let reported_size := default 10%float (span_size span) in
    let visual_height := (y1 (span_bbox span) - y0 (span_bbox span))%float in
    Some (mkSpanInfo (default "helv" (span_font span))
                     (actual_size reported_size visual_height)
                     (default 0 (span_color span)))
  else None.

Definition probe_line (rect : Rect) (line : Line) : option SpanInfo :=
  find_first (probe_span rect) (line_spans line).

Definition probe_block (rect : Rect) (block : Block) : option SpanInfo :=
  match block_lines block with
  | Some lines => find_first (probe_line rect) lines
  | None => None
  end.

(** The style probe: the first intersecting span in block, line and span
    order, or the default style. *)
Definition probe_style (page : Page Content) (rect : Rect) : SpanInfo :=
  default default_span_info
          (find_first (probe_block rect) (get_text_dict page)).

(** The body of [for rect in text_instances]. *)
Definition store_instance (page : Page Content) (page_num : Z)
    (search_text search_replacement : string)
    (text_positions : TextPositions) (rect : Rect) : TextPositions :=
  let key := mkKey page_num search_text (x0 rect) (y0 rect) in
  let span_info := probe_style page rect in
  Py.dict_set key_eqb text_positions key
              (mkInfo rect search_replacement span_info).

(** The body of [for search_text, search_replacement in elements_to_search]. *)
Definition search_pair (page : Page Content) (page_num : Z)
    (text_positions : TextPositions) (pair : string * string) : TextPositions :=
  let text_instances := search_for page pair.1 in
  foldl (store_instance page page_num pair.1 pair.2) text_positions text_instances.

(** The body of the first loop over [sensitive_elements], on the state
    [(text_positions, not_found_elements)]. *)
Definition locate_element (pages : list (Page Content))
    (st : TextPositions * list NotFound) (element : Element)
  : option (TextPositions * list NotFound) :=
  let page_num := default 1 (e_page element) - 1 in
  let original_text := default "" (e_value element) in
  let element_type := default "Unknown" (e_type element) in
  let replacement := default "XXXXX" (e_replacement element) in
  let to_search := elements_to_search element_type original_text replacement in
  if (page_num <? Z.of_nat (length pages))%Z then
    page ← doc_getitem pages page_num;
    let text_positions := foldl (search_pair page page_num) st.1 to_search in
    let not_found_elements :=
      match search_for page original_text with
      | [] => st.2 ++ [mkNotFound element_type original_text (page_num + 1)
                                  replacement]
      | _ :: _ => st.2
      end in
    Some (text_positions, not_found_elements)
  else Some st.

Fixpoint first_pass (pages : list (Page Content)) (elements : list Element)
    (st : TextPositions * list NotFound)
  : option (TextPositions * list NotFound) :=
  match elements with
  | [] => Some st
  | element :: rest =>
      st' ← locate_element pages st element;
      first_pass pages rest st'
  end.

End Locator.

(** ** [anonymize_pdf], second pass: the redaction compositor *)

(** The names given to [fitz.Font], in the order in which they are tried. *)
Definition font_attempts (original_font : string) : list string :=
  [original_font; Py.remove_char "-" original_font; "helv"; "Times-Roman"].

(** [font_map]: base font name to the page's reference name, from the tuples
    of [get_fonts] with at least five entries. *)
Definition build_font_map (page_fonts : list (list string)) : gmap string string :=
  foldl (fun font_map font_info =>
           if (5 <=? length font_info)%nat
           then <[nth 3 font_info "" := nth 4 font_info ""]> font_map
           else font_map)
        ∅ page_fonts.

(** [(rect.x0, rect.y0 + font_size * 0.8)] *)
Definition insertion_point (rect : Rect) (font_size : float) : float * float :=
  (x0 rect, (y0 rect + font_size * 0.8)%float).

Section Compositor.
Context {Content : Type} `{F : Fitz Content}.

(** [for font_name in font_attempts: try: font = fitz.Font(font_name); break
    except Exception: continue] *)
Fixpoint load_first (names : list string) : option Font :=
  match names with
  | [] => None
  | font_name :: rest =>
      if font_raises font_name then load_first rest
      else Some (FontNamed font_name)
  end.

(** The [TextWriter] path: strategies 2 and 3.  The calls that no [try]
    encloses ([fitz.TextWriter], [fitz.Font()], [tw.append] and
    [tw.write_text]) are taken to return here; [insert_replacement_or_raise]
    below has their exceptions. *)
Definition write_with_text_writer (page : Page Content) (info : Info)
  : Page Content :=
  let span_info := info_span_info info in
  let font :=
    match load_first (font_attempts (si_font span_info)) with
    | Some font => font
    | None => FontBase
    end in
  page_call page
    (WriteText (insertion_point (info_rect info) (si_size span_info))
               (info_replacement info) font (si_size span_info)).

(** The body of the insertion loop for one entry of the page. *)
Definition insert_replacement (font_map : gmap string string)
    (page : Page Content) (info : Info) : Page Content :=
  let span_info := info_span_info info in
  let original_font := si_font span_info in
  let font_size := si_size span_info in
  match font_map !! original_font with
  | Some ref_name =>
      let point := insertion_point (info_rect info) font_size in
      if insert_text_raises page point (info_replacement info) ref_name
                            font_size (si_color span_info)
      then write_with_text_writer page info
      else page_call page
             (InsertText point (info_replacement info) ref_name font_size
                         (si_color span_info))
  | None => write_with_text_writer page info
  end.

(** [redact_rects] of a page. *)
Definition redact_rects (text_positions : TextPositions) (page_num : nat)
  : list Rect :=
  info_rect <$> (snd <$> filter (fun kv => key_startswith_page kv.1 page_num = true)
                                text_positions).

(** The body of the second loop, for one page. *)
Definition process_page (text_positions : TextPositions) (page_num : nat)
    (page : Page Content) : Page Content :=
  let page := foldl (fun p rect => page_call p (AddRedactAnnot rect)) page
                    (redact_rects text_positions page_num) in
  let page := page_call page ApplyRedactions in
  let font_map := build_font_map (get_fonts page) in
  foldl (fun p kv =>
           if key_startswith_page kv.1 page_num
           then insert_replacement font_map p kv.2
           else p)
        page text_positions.

(** [for page_num in range(len(doc))], each page written back in place. *)
Definition second_pass (text_positions : TextPositions)
    (pages : list (Page Content)) : list (Page Content) :=
  foldl (fun doc page_num =>
           match doc !! page_num with
           | Some page => <[page_num := process_page text_positions page_num page]> doc
           | None => doc
           end)
        pages (seq 0 (length pages)).

End Compositor.

(** ** [anonymize_pdf]: metadata, statistics and the whole function *)

Definition ATTRIBUTION : string := "holomask https://holofin.ai".

(** [original_metadata.copy() if original_metadata else {}], then the author
    is overwritten. *)
Definition attributed_metadata
    (original_metadata : option (gmap string (option string)))
  : gmap string (option string) :=
  let metadata :=
    match original_metadata with
    | Some m => if bool_decide (m = ∅) then ∅ else m
    | None => ∅
    end in
  <["author" := Some ATTRIBUTION]> metadata.

(** The loop that fills [elements_by_type]. *)
Definition count_by_type (elements : list Element) : gmap string nat :=
  foldl (fun elements_by_type element =>
           let element_type := default "Unknown" (e_type element) in
           <[element_type := (default 0 (elements_by_type !! element_type) + 1)%nat]>
             elements_by_type)
        ∅ elements.

Record Summary := mkSummary {
  total_elements_found : nat;
  total_replacements : nat;
  elements_by_type : gmap string nat;
  ai_detected_count : nat;
  actually_found_count : nat;
  not_found_count : nat
}.

(** The oracle's answer, and the keys [anonymize_pdf] adds to it. *)
Record AnalysisResult := mkAnalysisResult {
  sensitive_elements : option (list Element);
  anonymization_summary : option Summary;
  not_found_in_pdf : option (list NotFound)
}.

Section AnonymizePdf.
Context {Content : Type} `{F : Fitz Content}.

(** The function from [fitz.open] to the statistics.  Writing the document
    with [doc.save] (line 238) is not part of the model: the library refuses
    to save a document without pages, so the result stands for what the
    code returns on a document with at least one page. *)
Definition anonymize_pdf (analysis_result : AnalysisResult)
    (doc : Document Content) : option (AnalysisResult * Document Content) :=
  let original_metadata := doc_metadata doc in
  let elements := default [] (sensitive_elements analysis_result) in
  st ← first_pass (doc_pages doc) elements ([], []);
  let text_positions := st.1 in
  let not_found_elements := st.2 in
  let pages := second_pass text_positions (doc_pages doc) in
  let metadata := attributed_metadata original_metadata in
  let summary :=
    {| total_elements_found := length elements;
       total_replacements := length text_positions;
       elements_by_type := count_by_type elements;
       ai_detected_count := length elements;
       actually_found_count := length text_positions;
       not_found_count := length not_found_elements |} in
  Some ({| sensitive_elements := sensitive_elements analysis_result;
           anonymization_summary := Some summary;
           not_found_in_pdf :=
             match not_found_elements with
             | [] => not_found_in_pdf analysis_result
             | _ :: _ => Some not_found_elements
             end |},
        mkDocument pages (Some metadata)).

End AnonymizePdf.

(** ** [MistralAnalyzer.extract_text_from_pdf]: the overlap-aware extractor *)

(** The newline character. *)
Definition NL : string := String "010"%char "".

Section Extractor.
Context {Content : Type} `{F : Fitz Content}.

(** [intersection.get_area() / line_rect.get_area() if line_rect.get_area() > 0
  else 0] *)
Definition overlap_ratio (line_rect seen_rect : Rect) : float :=
let intersection := rect_and line_rect seen_rect in
if (0 <? rect_get_area line_rect)%float
then (rect_get_area intersection / rect_get_area line_rect)%float
else 0%float.

(** The test made on one member of [seen_positions]. *)
Definition overlaps (line_rect seen_rect : Rect) : bool :=
rect_intersects line_rect seen_rect
&& (0.5 <? overlap_ratio line_rect seen_rect)%float.

(** [is_overlapping] after the loop over [seen_positions].  The set is only
  asked whether some member overlaps, so it is kept as the list of the
  rectangles added to it. *)
Definition is_overlapping (line_rect : Rect) (seen_positions : list Rect) : bool :=
existsb (overlaps line_rect) seen_positions.

(** [line_text] after the loop over the spans. *)
Definition line_text_of (line : Line) : string :=
foldl (fun line_text span => line_text +:+ default "" (span_text span)) ""
      (line_spans line).

(** The body of [for line in block["lines"]], on the state
  [(page_text_parts, seen_positions)]. *)
Definition process_line (st : list string * list Rect) (line : Line)
: list string * list Rect :=
let flagged :=
  match line_bbox line with
  | Some line_rect => is_overlapping line_rect st.2
  | None => false
  end in
let seen_positions :=
  match line_bbox line with
  | Some line_rect => if flagged then st.2 else st.2 ++ [line_rect]
  | None => st.2
  end in
let line_text := line_text_of line in
let page_text_parts :=
  if Py.truthy (Py.strip line_text) && negb flagged
  then st.1 ++ [line_text]
  else st.1 in
(page_text_parts, seen_positions).

Definition process_block (st : list string * list Rect) (block : Block)
: list string * list Rect :=
match block_lines block with
| Some lines => foldl process_line st lines
| None => st
end.

Definition extract_page (page : Page Content) : string :=
Py.join NL (foldl process_block ([], []) (get_text_dict_sorted page)).1.

Definition extract_text_from_pdf (pages : list (Page Content)) : string :=
let text_content :=
  imap (fun page_num page => (S page_num, extract_page page)) pages in
let formatted_content :=
  (fun nt : nat * string => "--- Page " +:+ pretty nt.1 +:+ " ---" +:+ NL +:+ nt.2)
    <$> filter (fun nt => Py.truthy (Py.strip nt.2) = true) text_content in
Py.join (NL +:+ NL) formatted_content.

End Extractor.

(** ** A small library instance, for running the model

    A page content is a table from searched text to the rectangles where it
    renders, the blocks of the text dictionary and the font tuples.
    [fitz.Rect] follows PyMuPDF: a rectangle is empty when [x0 >= x1] or
    [y0 >= y1], the intersection takes the larger lower and the smaller
    upper coordinates, and the area of an empty rectangle is 0. *)

Module Sample.

Record Content := mkContent {
words : list (string * list Rect);
blocks : list Block;
fonts : list (list string)
}.

Definition rects_of (table : list (string * list Rect)) (text : string)
: list Rect :=
default [] (snd <$> List.find (fun entry => String.eqb entry.1 text) table).

Definition fmax (a b : float) : float := if (a <? b)%float then b else a.
Definition fmin (a b : float) : float := if (b <? a)%float then b else a.

Definition is_empty (r : Rect) : bool :=
(x1 r <=? x0 r)%float || (y1 r <=? y0 r)%float.

Definition is_infinite (r : Rect) : bool :=
(x0 r =? -2147483648)%float && (y0 r =? -2147483648)%float
&& (x1 r =? 2147483520)%float && (y1 r =? 2147483520)%float.

Definition intersect (a b : Rect) : Rect :=
if is_infinite b then a
else if is_infinite a then b
else if is_empty b then b
else if is_empty a then a
else mkRect (fmax (x0 a) (x0 b)) (fmax (y0 a) (y0 b))
            (fmin (x1 a) (x1 b)) (fmin (y1 a) (y1 b)).

Definition intersects (a b : Rect) : bool :=
if is_empty a || is_infinite a || is_empty b || is_infinite b then false
else negb (is_empty (intersect a b)).

Definition get_area (r : Rect) : float :=
if is_empty r then 0%float
else ((x1 r - x0 r) * (y1 r - y0 r))%float.

#[export] Instance fitz : Fitz Content := {|
search_for page text := rects_of (words (page_content page)) text;
get_text_dict page := blocks (page_content page);
get_text_dict_sorted page := blocks (page_content page);
get_fonts page := fonts (page_content page);
insert_text_raises _ _ _ _ _ _ := false;
font_raises name := negb (String.eqb name "helv" || String.eqb name "Times-Roman");
rect_intersects := intersects;
rect_and := intersect;
rect_get_area := get_area
|}.

(** A page that renders "John Doe" once, in a 12 point Helvetica span. *)
Definition john_rect : Rect := mkRect 72 60 120 74.
Definition john_first : Rect := mkRect 72 60 95 74.
Definition doe_rect : Rect := mkRect 98 60 120 74.
Definition john_span : Span :=
mkSpan john_rect (Some 12%float) (Some "Helvetica") (Some 0) (Some "John Doe").

Definition john_page : Page Content :=
mkPage {| words := [("John Doe", [john_rect]); ("John", [john_first]);
                    ("Doe", [doe_rect])];
          blocks := [mkBlock (Some [mkLine (Some john_rect) [john_span]])];
          fonts := [["5"; "n/a"; "Type1"; "Helvetica"; "F1"; "WinAnsiEncoding"; "0"]] |}
       [].

(** The document of the metadata test: a title and an author are set. *)
Definition titled_doc : Document Content :=
  mkDocument [john_page]
             (Some (<["title" := Some "Test Document"]>
                      (<["author" := Some "Original Author"]>
                         (<["encryption" := None]> ∅)))).

Definition john_element : Element :=
  mkElement (Some "Person Name") (Some "John Doe") (Some "Jane Smith") (Some 1).

(** An IBAN that the page does not render. *)
Definition iban_element (page : Z) : Element :=
  mkElement (Some "IBAN") (Some "FR1234567890123456789012345")
            (Some "FR9876543210987654321098765") (Some page).

(** A name whose tokens render on the page while the full value does not. *)
Definition jane_doe_john : Element :=
  mkElement (Some "Person Name") (Some "Doe   John") (Some "Smith Jane") (Some 1).

Definition report (elements : list Element) : AnalysisResult :=
  mkAnalysisResult (Some elements) None None.

(** The outcome of a run, for reading off its parts. *)
Definition outcome (analysis_result : AnalysisResult) (doc : Document Content)
  : AnalysisResult * Document Content :=
  default (analysis_result, doc) (anonymize_pdf analysis_result doc).

(** A line of blanks with a bounding box, and a line drawn over it. *)
Definition blank_line : Line :=
  mkLine (Some john_rect)
         [mkSpan john_rect (Some 12%float) (Some "Helvetica") (Some 0) (Some "   ")].
Definition john_line : Line := mkLine (Some john_rect) [john_span].

End Sample.

(** ** Notions used in the statements *)

(** A metadata field of a document, as [doc.metadata.get(field)] reads it. *)
Definition metadata_field {Content} (doc : Document Content) (field : string)
  : option (option string) :=
  doc_metadata doc ≫= fun metadata => metadata !! field.

(** The type under which the statistics count an element. *)
Definition element_type_of (element : Element) : string :=
  default "Unknown" (e_type element).

(** How many of the elements are counted under a type. *)
Definition reported_with_type (element_type : string) (elements : list Element)
  : nat :=
  length (filter (fun element => element_type_of element = element_type) elements).

(** The sum of the counts of [elements_by_type]. *)
Definition sum_counts (counts : gmap string nat) : nat :=
  map_fold (fun _ n total => (n + total)%nat) 0%nat counts.

(** The calls of the compositor that draw text. *)
Definition is_insertion (op : PageOp) : bool :=
  match op with
  | InsertText _ _ _ _ _ | WriteText _ _ _ _ => true
  | _ => false
  end.

(** The font-resolution chain in the words of the specification: an ordered
    list of strategies, each of which succeeds with the call that draws the
    replacement or fails, composed by "the first success wins". *)
Inductive Strategy :=
| EmbeddedPageFont
| StandaloneExactName
| StandaloneHyphensStripped
| StandardSansSerif
| StandardSerif
| BuiltInBaseFace.

Definition font_chain : list Strategy :=
  [EmbeddedPageFont; StandaloneExactName; StandaloneHyphensStripped;
   StandardSansSerif; StandardSerif; BuiltInBaseFace].

Section Chain.
Context {Content : Type} `{F : Fitz Content}.

Definition attempt_standalone (info : Info) (name : string) : option PageOp :=
  if font_raises name then None
  else Some (WriteText (insertion_point (info_rect info) (si_size (info_span_info info)))
                       (info_replacement info) (FontNamed name)
                       (si_size (info_span_info info))).

Definition attempt (font_map : gmap string string) (page : Page Content)
    (info : Info) (strategy : Strategy) : option PageOp :=
  let span_info := info_span_info info in
  let point := insertion_point (info_rect info) (si_size span_info) in
  match strategy with
  | EmbeddedPageFont =>
      ref_name ← font_map !! si_font span_info;
      if insert_text_raises page point (info_replacement info) ref_name
                            (si_size span_info) (si_color span_info)
      then None
      else Some (InsertText point (info_replacement info) ref_name
                            (si_size span_info) (si_color span_info))
  | StandaloneExactName => attempt_standalone info (si_font span_info)
  | StandaloneHyphensStripped =>
      attempt_standalone info (Py.remove_char "-" (si_font span_info))
  | StandardSansSerif => attempt_standalone info "helv"
  | StandardSerif => attempt_standalone info "Times-Roman"
  | BuiltInBaseFace =>
      Some (WriteText point (info_replacement info) FontBase (si_size span_info))
  end.

Definition first_success (font_map : gmap string string) (page : Page Content)
    (info : Info) : option PageOp :=
  find_first (attempt font_map page info) font_chain.

End Chain.

(** ** [MistralAnalyzer.analyze_document]: the text handed to the oracle *)

(** [s[:n]] *)
Fixpoint slice_to (n : nat) (s : string) : string :=
  match n, s with
  | S n', String c s' => String c (slice_to n' s')
  | _, _ => ""
  end.

(** The number of characters of the document text handed to the oracle. *)
Definition text_budget : nat := Z.to_nat 8000.

(** [was_truncated] and [pdf_text] of [analyze_document]. *)
Definition analysis_text (full_text : string) : string * bool :=
  let was_truncated := (text_budget <? String.length full_text)%nat in
  let pdf_text := slice_to text_budget full_text in
  (pdf_text, was_truncated).

(** ** [MistralAnalyzer._build_entity_list_prompt] *)

(** An entry of the entity configuration; every key may be missing. *)
Record Entity := mkEntity {
  entity_type : option string;
  entity_description : option string;
  entity_example : option string;
  entity_enabled : option bool
}.

Definition entity_line (entity : Entity) : string :=
  let type := default "Unknown" (entity_type entity) in
  let description := default "" (entity_description entity) in
  let example := default "" (entity_example entity) in
  if Py.truthy description && Py.truthy example
  then "- " +:+ type +:+ ": " +:+ description +:+ " (e.g., " +:+ example +:+ ")"
  else if Py.truthy description
       then "- " +:+ type +:+ ": " +:+ description
       else "- " +:+ type.

(** [entities] is the value of the key ["entities"] of the configuration,
    [None] when the key is missing. *)
Definition build_entity_list_prompt (entities : option (list Entity)) : string :=
  let enabled_entities :=
    filter (fun entity => default true (entity_enabled entity) = true)
           (default [] entities) in
  Py.join NL (entity_line <$> enabled_entities).


(** ** [process_pdf] of [app/main.py]: validation and the answers to failures

    The exceptions the handlers of [process_pdf] tell apart, the upload as
    its file name and size, the outcome of opening it with [fitz.open] (its
    page count), and the outcome of the steps between the validation and
    the [return] ([anonymize_pdf] and the packing of the response).  Reading
    the upload and writing it to disk are taken to succeed.  An exception
    is listed under the first [except] clause that catches it.

    [Raised] holds the exceptions of class [Exception] only.  What is not
    an [Exception] ([KeyboardInterrupt], [SystemExit], the cancellation of
    the request) passes through every [except] clause, and an error of the
    cleanup in [finally] other than a missing file replaces the exception
    in flight: neither is part of the model. *)

Inductive Raised :=
| ValueError (message : string)
| RequestException (message : string)
| FileDataError (message : string)
| HTTPException (status_code : Z) (detail : string)
| OtherException (message : string).

Inductive Outcome (R : Type) :=
| Returns (r : R)
| Raises (e : Raised).
Arguments Returns {R} _.
Arguments Raises {R} _.

(** [c.lower()] for a code point below 256: A..Z and the capital letters of
    Latin-1 (all of U+00C0..U+00DE but the multiplication sign). *)
Definition lower_char (c : ascii) : ascii :=
  let n := N_of_ascii c in
  if ((65 <=? n) && (n <=? 90) || (192 <=? n) && (n <=? 214)
      || (216 <=? n) && (n <=? 222))%N
  then ascii_of_N (n + 32)
  else c.

Fixpoint lower (s : string) : string :=
  match s with
  | EmptyString => ""
  | String c s' => String (lower_char c) (lower s')
  end.

(** [s.endswith(suffix)] *)
Fixpoint endswith (s suffix : string) : bool :=
  if String.eqb s suffix then true
  else match s with
       | EmptyString => false
       | String _ s' => endswith s' suffix
       end.

(** [50 * 1024 * 1024] *)
Definition MAX_UPLOAD : N := 50 * 1024 * 1024.

Section ProcessPdf.
Context {R : Type}.
(** [str(e)] of an [HTTPException], which the web framework defines. *)
Variable http_str : Z -> string -> string.

Definition exc_str (e : Raised) : string :=
  match e with
  | ValueError message | RequestException message | FileDataError message
  | OtherException message => message
  | HTTPException status_code detail => http_str status_code detail
  end.

(** The inner [try]: the upload opens as a PDF with at least one page. *)
Definition validate_pdf (opened : Outcome nat) : Outcome unit :=
  let checked :=
    match opened with
    | Returns O => Raises (HTTPException 400 "PDF has no pages")
    | Returns (S _) => Returns tt
    | Raises e => Raises e
    end in
  match checked with
  | Returns _ => Returns tt
  | Raises e => Raises (HTTPException 400 ("Invalid PDF file: " +:+ exc_str e))
  end.

(** The body of the outer [try]. *)
Definition process_body (content_length : N) (opened : Outcome nat)
    (processing : Outcome R) : Outcome R :=
  if (MAX_UPLOAD <? content_length)%N
  then Raises (HTTPException 413 "File too large (max 50MB)")
  else if (content_length =? 0)%N
  then Raises (HTTPException 400 "Uploaded file is empty")
  else match validate_pdf opened with
       | Raises e => Raises e
       | Returns _ => processing
       end.

(** The [except] clauses of the outer [try], in their order. *)
Definition handle (e : Raised) : Raised :=
  match e with
  | ValueError _ => HTTPException 500 (exc_str e)
  | RequestException _ => HTTPException 502 ("AI service error: " +:+ exc_str e)
  | FileDataError _ => HTTPException 400 ("Invalid PDF file: " +:+ exc_str e)
  | _ => HTTPException 500 ("Processing failed: " +:+ exc_str e)
  end.

Definition process_pdf (filename : option string) (content_length : N)
    (opened : Outcome nat) (processing : Outcome R) : Outcome R :=
  match filename with
  | None => Raises (HTTPException 400 "No filename provided")
  | Some name =>
      if negb (Py.truthy name)
      then Raises (HTTPException 400 "No filename provided")
      else if negb (endswith (lower name) ".pdf")
      then Raises (HTTPException 400
                     ("Only PDF files are supported (got: " +:+ name +:+ ")"))
      else match process_body content_length opened processing with
           | Returns r => Returns r
           | Raises e => Raises (handle e)
           end
  end.

End ProcessPdf.

(** A file name that passes the two checks made before the [try]. *)
Definition pdf_name (filename : option string) : Prop :=
  exists name, filename = Some name /\ name <> ""
               /\ endswith (lower name) ".pdf" = true.

(** ** Further notions used in the statements *)

(** The lines of a text dictionary in reading order. *)
Definition all_lines (text_blocks : list Block) : list Line :=
  block ← text_blocks; default [] (block_lines block).

(** The state of the extractor after the lines [text_lines]: the texts
    emitted and the rectangles accepted are taken from these lines, in
    their order, and no emitted text is blank. *)
Definition lines_kept (text_lines : list Line) (st : list string * list Rect) : Prop :=
  st.1 `sublist_of` (line_text_of <$> text_lines)
  /\ st.2 `sublist_of` omap line_bbox text_lines
  /\ Forall (fun text => Py.strip text <> "") st.1.

(** The calls that add a redaction annotation. *)
Definition is_annotation (op : PageOp) : bool :=
  match op with AddRedactAnnot _ => true | _ => false end.

(** How many calls of a kind the pages of a document have received. *)
Definition count_calls {Content} (kind : PageOp -> bool)
    (pages : list (Page Content)) : nat :=
  sum_list_with (fun page => length (filter (fun op => kind op = true) (page_ops page)))
                pages.

(** Where an entry of [text_positions] comes from. *)
Definition found_for {Content} `{F : Fitz Content} (pages : list (Page Content))
    (elements : list Element) (entry : Key * Info) : Prop :=
  exists element page,
    element ∈ elements
    /\ key_page entry.1 = default 1 (e_page element) - 1
    /\ key_page entry.1 < Z.of_nat (length pages)
    /\ doc_getitem pages (key_page entry.1) = Some page
    /\ (key_text entry.1, info_replacement entry.2)
         ∈ elements_to_search (default "Unknown" (e_type element))
                              (default "" (e_value element))
                              (default "XXXXX" (e_replacement element))
    /\ info_rect entry.2 ∈ search_for page (key_text entry.1)
    /\ key_x0 entry.1 = x0 (info_rect entry.2)
    /\ key_y0 entry.1 = y0 (info_rect entry.2)
    /\ info_span_info entry.2 = probe_style page (info_rect entry.2).

(** The not-found entry of an element. *)
Definition not_found_entry (element : Element) : NotFound :=
  mkNotFound (default "Unknown" (e_type element)) (default "" (e_value element))
             (default 1 (e_page element)) (default "XXXXX" (e_replacement element)).

(** The spans of a text dictionary in reading order. *)
Definition all_spans (text_blocks : list Block) : list Span :=
  block ← text_blocks; line ← default [] (block_lines block); line_spans line.

(** The style read off one span. *)
Definition style_of (span : Span) : SpanInfo :=
  mkSpanInfo (default "helv" (span_font span))
             (actual_size (default 10%float (span_size span))
                          (y1 (span_bbox span) - y0 (span_bbox span))%float)
             (default 0 (span_color span)).

(** What an inserting call draws, where, and at which size. *)
Definition drawn (op : PageOp) : option (float * float * string * float) :=
  match op with
  | InsertText point text _ fontsize _ => Some (point, text, fontsize)
  | WriteText point text _ fontsize => Some (point, text, fontsize)
  | _ => None
  end.

(** A token: not empty, no whitespace. *)
Definition is_token (s : string) : Prop :=
  s <> "" /\ Forall (fun c => Py.isspace c = false) (list_ascii_of_string s).

(** The assignments to [text_positions] made for one element on its page. *)
Definition writes_of {Content} `{F : Fitz Content} (page : Page Content)
    (page_num : Z) (to_search : list (string * string)) : list (Key * Info) :=
  pair ← to_search;
  rect ← search_for page pair.1;
  [(mkKey page_num pair.1 (x0 rect) (y0 rect),
    mkInfo rect pair.2 (probe_style page rect))].

(** Data for running the further functions. *)

(** A rectangle without area, and a page whose only line is blank. *)
Definition flat_rect : Rect := mkRect 72 60 72 74.

Definition blank_page : Page Sample.Content :=
  mkPage {| Sample.words := [];
            Sample.blocks := [mkBlock (Some [Sample.blank_line]); mkBlock None];
            Sample.fonts := [] |}
         [].

Definition iban_entity (enabled : option bool) : Entity :=
  mkEntity (Some "IBAN") (Some "Bank account number") (Some "FR76...") enabled.

(** [str(e)] of an [HTTPException] as "status: detail". *)
Definition status_and_detail (status_code : Z) (detail : string) : string :=
  pretty status_code +:+ ": " +:+ detail.

(** ** Data for the overlay test *)

(** A large rectangle and a small one inside it. *)
Definition wide_rect : Rect := mkRect 0 0 100 100.
Definition inner_rect : Rect := mkRect 10 10 20 20.
Definition wide_line : Line :=
  mkLine (Some wide_rect)
         [mkSpan wide_rect (Some 12%float) None None (Some "Statement of account")].
Definition inner_line : Line :=
  mkLine (Some inner_rect)
         [mkSpan inner_rect (Some 12%float) None None (Some "COPY")].

(** ** Stored replacements *)

(** A stored replacement is the replacement of [element] (the placeholder
    when the field is missing), or its first or last token. *)
Definition replaced_by (element : Element) (stored : string) : Prop :=
  let replacement := default "XXXXX" (e_replacement element) in
  stored = replacement
  \/ stored = Py.first (Py.split replacement)
  \/ stored = Py.last (Py.split replacement).

(** Two records that match the same text at the same place: the first has
    no replacement, the second has one. *)
Definition doe_unreplaced : Element :=
  mkElement (Some "Surname") (Some "Doe") None (Some 1).
Definition doe_replaced : Element :=
  mkElement (Some "Surname") (Some "Doe") (Some "Jim") (Some 1).

(** ** Records reported as not found *)


(** [needle in text] *)
Fixpoint contains (text needle : string) : bool :=
  String.prefix needle text
  || match text with
     | EmptyString => false
     | String _ text' => contains text' needle
     end.

(** ** A library instance whose search behaves as the library documents

    A page is its runs of text with their boxes.  [search_for] ignores the
    case of letters and returns nothing for an empty needle; it answers with
    the boxes of the runs in which the needle occurs. *)

Module CaseSearch.

Definition Content : Type := list (string * Rect).

Definition search (runs : Content) (needle : string) : list Rect :=
  if Py.truthy needle
  then snd <$> filter (fun run => contains (lower run.1) (lower needle) = true) runs
  else [].


Definition fitz : Fitz Content := {|
  search_for page needle := search (page_content page) needle;
  get_text_dict page :=
    [mkBlock (Some ((fun run : string * Rect =>
                       mkLine (Some run.2)
                              [mkSpan run.2 (Some 12%float) (Some "Helvetica")
                                      (Some 0) (Some run.1)])
                      <$> page_content page))];
  get_text_dict_sorted page :=
    [mkBlock (Some ((fun run : string * Rect =>
                       mkLine (Some run.2)
                              [mkSpan run.2 (Some 12%float) (Some "Helvetica")
                                      (Some 0) (Some run.1)])
                      <$> page_content page))];
  get_fonts _ := [];
  insert_text_raises _ _ _ _ _ _ := false;
  font_raises name := negb (String.eqb name "helv" || String.eqb name "Times-Roman");
  rect_intersects := Sample.intersects;
  rect_and := Sample.intersect;
  rect_get_area := Sample.get_area
|}.

Definition page : Page Content := mkPage [("John Doe", Sample.john_rect)] [].


End CaseSearch.

(** ** The calls of the insertion that no [try] encloses *)



Section UnguardedCalls.
Context {Content : Type} `{F : Fitz Content}.


End UnguardedCalls.




(** ** A record that names page 0 *)




(** * Properties *)

Import Sample.

(** ** Binary64 facts used below *)

Lemma float_mul_comm (x y : float) : (x * y)%float = (y * x)%float.
Proof.
  apply Prim2SF_inj. rewrite !mul_spec.
  destruct (Prim2SF x) as [sx|sx| |sx mx ex], (Prim2SF y) as [sy|sy| |sy my ey];
    cbn; try reflexivity; try (by rewrite xorb_comm).
  by rewrite xorb_comm, Pos.mul_comm, Z.add_comm.
Qed.

Lemma SFcompare_le_not_gt (a b : spec_float) :
  SFleb a b = true -> SFltb b a = false.
Proof.
  unfold SFleb, SFltb.
  destruct a as [sa|sa| |sa ma ea], b as [sb|sb| |sb mb eb]; cbn;
    try done; try (by destruct sa); try (by destruct sb);
    try (by destruct sa, sb).
  rewrite (Z.compare_antisym ea eb).
  pose proof (Pos.compare_cont_antisym ma mb Eq) as Hm. cbn in Hm.
  rewrite <- Hm.
  destruct sa, sb; try done; destruct (ea ?= eb)%Z; cbn; try done;
    by destruct (Pos.compare_cont Eq ma mb).
Qed.

Lemma float_leb_not_ltb (x y : float) :
  (x <=? y)%float = true -> (y <? x)%float = false.
Proof. rewrite leb_spec, ltb_spec. apply SFcompare_le_not_gt. Qed.

(** ** The style probe *)

(** C6.  The corrected size of a probed run: when the visual height exceeds
    1.5 times the reported size it is 0.85 times the visual height; when the
    visual height is at most 1.5 times the reported size it is the reported
    size itself; a reported size of 10 with a visual height of 20 gives 17.
    Products and comparisons are those of binary64. *)
Theorem C6_actual_size (reported_size visual_height : float) :
  ((1.5 * reported_size <? visual_height)%float = true ->
     actual_size reported_size visual_height = (0.85 * visual_height)%float)
  /\ ((visual_height <=? 1.5 * reported_size)%float = true ->
     actual_size reported_size visual_height = reported_size)
  /\ actual_size 10 20 = 17%float.
Proof.
  unfold actual_size.
  rewrite (float_mul_comm 1.5 reported_size), (float_mul_comm 0.85 visual_height).
  split; [|split].
  - by intros ->.
  - intros Hle. by rewrite (float_leb_not_ltb _ _ Hle).
  - reflexivity.
Qed.

Lemma C6_actual_size_witness :
  actual_size 10 20 = (0.85 * 20)%float /\ actual_size 12 14 = 12%float.
Proof.
  split.
  - exact (proj1 (C6_actual_size 10 20) eq_refl).
  - exact (proj1 (proj2 (C6_actual_size 12 14)) eq_refl).
Defined.

(** ** The search pairs of a record *)



(** ** Metadata and statistics *)

Lemma attributed_metadata_other
    (original : option (gmap string (option string)))
    (field : string) :
  field <> "author" ->
  attributed_metadata original !! field = original ≫= fun m => m !! field.
Proof.
  intros Hne. unfold attributed_metadata.
  rewrite lookup_insert_ne by done.
  destruct original as [m|]; cbn; [| done].
  case_bool_decide; by subst.
Qed.

Lemma attributed_metadata_author
    (original : option (gmap string (option string))) :
  attributed_metadata original !! "author" = Some (Some ATTRIBUTION).
Proof. unfold attributed_metadata. apply lookup_insert_eq. Qed.

(** C3.  When [anonymize_pdf] returns, every metadata field other than the
    author reads the same in the output document as in the input document,
    and the author of the output is "holomask https://holofin.ai" whatever
    it was. *)
Theorem C3_metadata_preserved {Content} `{F : Fitz Content}
    (analysis_result result : AnalysisResult) (doc out : Document Content) :
  anonymize_pdf analysis_result doc = Some (result, out) ->
  (forall field, field <> "author" ->
     metadata_field out field = metadata_field doc field)
  /\ metadata_field out "author" = Some (Some "holomask https://holofin.ai").
Proof.
  unfold anonymize_pdf. intros Hrun.
  destruct (first_pass _ _ _) as [st|]; [| done].
  cbn in Hrun. injection Hrun as _ <-.
  unfold metadata_field. cbn. split.
  - intros field Hne. by apply attributed_metadata_other.
  - apply attributed_metadata_author.
Qed.

Lemma C3_metadata_preserved_witness :
  let run := outcome (report []) titled_doc in
  metadata_field run.2 "title" = Some (Some "Test Document")
  /\ metadata_field run.2 "encryption" = Some None
  /\ metadata_field run.2 "author" = Some (Some "holomask https://holofin.ai").
Proof.
  cbv zeta.
  destruct (C3_metadata_preserved (report []) (outcome (report []) titled_doc).1
              titled_doc (outcome (report []) titled_doc).2)
    as [Hother Hauthor].
  - vm_compute. reflexivity.
  - split; [| split; [| exact Hauthor]];
      rewrite Hother by done; vm_compute; reflexivity.
Defined.

Lemma sum_counts_increment (counts : gmap string nat) (element_type : string) :
  sum_counts (<[element_type := (default 0 (counts !! element_type) + 1)%nat]> counts)
  = S (sum_counts counts).
Proof.
  unfold sum_counts.
  destruct (counts !! element_type) as [n|] eqn:Hlook; cbn.
  - rewrite <- (insert_delete_id counts element_type n Hlook) at 2.
    rewrite <- insert_delete_eq.
    rewrite !map_fold_insert_L;
      try (intros; lia); try apply lookup_delete_eq.
  - rewrite map_fold_insert_L; [lia | intros; lia | done].
Qed.

Lemma sum_counts_foldl (elements : list Element) (counts : gmap string nat) :
  sum_counts
    (foldl (fun elements_by_type element =>
              let element_type := default "Unknown" (e_type element) in
              <[element_type := (default 0 (elements_by_type !! element_type) + 1)%nat]>
                elements_by_type)
           counts elements)
  = (sum_counts counts + length elements)%nat.
Proof.
  revert counts. induction elements as [|element rest IH]; intros counts; cbn.
  - lia.
  - rewrite IH, sum_counts_increment. lia.
Qed.

Lemma lookup_counts_foldl (elements : list Element) (counts : gmap string nat)
    (element_type : string) :
  default 0%nat
    (foldl (fun elements_by_type element =>
              let element_type := default "Unknown" (e_type element) in
              <[element_type := (default 0 (elements_by_type !! element_type) + 1)%nat]>
                elements_by_type)
           counts elements !! element_type)
  = (default 0%nat (counts !! element_type)
     + reported_with_type element_type elements)%nat.
Proof.
  revert counts. unfold reported_with_type.
  induction elements as [|element rest IH]; intros counts.
  - cbn. lia.
  - cbn [foldl]. rewrite IH, filter_cons. unfold element_type_of. cbv zeta.
    destruct (decide (default "Unknown" (e_type element) = element_type))
      as [->|Hne].
    + rewrite lookup_insert_eq. cbn. lia.
    + by rewrite lookup_insert_ne.
Qed.

(** C10.  In the summary [anonymize_pdf] returns, [elements_by_type] holds
    for each type the number of reported elements of that type, a missing
    type counting as "Unknown"; every reported element is counted, matched
    or not and whatever its page, so the counts add up to
    [total_elements_found], the number of reported elements. *)
Theorem C10_elements_by_type {Content} `{F : Fitz Content}
    (analysis_result result : AnalysisResult) (doc out : Document Content) :
  anonymize_pdf analysis_result doc = Some (result, out) ->
  exists summary,
    anonymization_summary result = Some summary
    /\ let elements := default [] (sensitive_elements analysis_result) in
       total_elements_found summary = length elements
       /\ (forall element_type,
             default 0%nat (elements_by_type summary !! element_type)
             = reported_with_type element_type elements)
       /\ sum_counts (elements_by_type summary) = total_elements_found summary.
Proof.
  unfold anonymize_pdf. intros Hrun.
  destruct (first_pass _ _ _) as [st|]; [| done].
  cbn in Hrun. injection Hrun as <- _.
  eexists. split; [reflexivity |]. cbn. split; [done |]. split.
  - intros element_type. unfold count_by_type.
    by rewrite lookup_counts_foldl, lookup_empty.
  - unfold count_by_type. rewrite sum_counts_foldl.
    unfold sum_counts. by rewrite map_fold_empty.
Qed.

Lemma C10_elements_by_type_witness :
  let elements := [iban_element 1; iban_element 7; mkElement None (Some "Doe") None (Some 1%Z)] in
  let run := outcome (report elements) titled_doc in
  exists summary,
    anonymization_summary run.1 = Some summary
    /\ elements_by_type summary !! "IBAN" = Some 2%nat
    /\ elements_by_type summary !! "Unknown" = Some 1%nat
    /\ sum_counts (elements_by_type summary) = 3%nat
    /\ total_elements_found summary = 3%nat
    /\ total_replacements summary = 1%nat.
Proof.
  cbv zeta.
  set (elements := [iban_element 1; iban_element 7; mkElement None (Some "Doe") None (Some 1%Z)]).
  destruct (C10_elements_by_type (report elements)
              (outcome (report elements) titled_doc).1 titled_doc
              (outcome (report elements) titled_doc).2)
    as (summary & Hsummary & Htotal & Hcount & Hsum).
  - vm_compute. reflexivity.
  - exists summary. split; [exact Hsummary |].
    vm_compute in Hsummary. injection Hsummary as <-.
    repeat split; vm_compute; reflexivity.
Defined.

(** ** The occurrence locator *)

Lemma doc_getitem_in_range {Content} (pages : list (Page Content)) (i : Z) :
  0 <= i < Z.of_nat (length pages) ->
  exists page, pages !! Z.to_nat i = Some page /\ doc_getitem pages i = Some page.
Proof.
  intros Hi. unfold doc_getitem.
  destruct (pages !! Z.to_nat i) as [page|] eqn:Hpage.
  - exists page. split; [done |].
    rewrite (proj2 (Z.leb_gt _ _)) by lia.
    rewrite (proj2 (Z.eqb_neq _ _)) by lia.
    by rewrite Z.mod_small.
  - apply lookup_ge_None in Hpage. lia.
Qed.

(** A record whose page lies beyond the last page leaves the state as it is. *)
Lemma locate_element_beyond_last_page {Content} `{F : Fitz Content}
    (pages : list (Page Content)) (st : TextPositions * list NotFound)
    (element : Element) :
  Z.of_nat (length pages) < default 1 (e_page element) ->
  locate_element pages st element = Some st.
Proof.
  intros Hpage. unfold locate_element.
  by rewrite (proj2 (Z.ltb_ge _ _)) by lia.
Qed.

(** A record whose page is not positive passes the guard
    [page_num < len(doc)]; on a document with pages the page it names,
    counting back from the end, is searched. *)
Lemma locate_element_below_first_page {Content} `{F : Fitz Content}
    (pages : list (Page Content)) (st : TextPositions * list NotFound)
    (element : Element) :
  pages <> [] ->
  default 1 (e_page element) <= 0 ->
  exists page text_positions,
    doc_getitem pages (default 1 (e_page element) - 1) = Some page
    /\ locate_element pages st element =
       Some (text_positions,
             st.2 ++ match search_for page (default "" (e_value element)) with
                     | [] => [mkNotFound (default "Unknown" (e_type element))
                                         (default "" (e_value element))
                                         (default 1 (e_page element))
                                         (default "XXXXX" (e_replacement element))]
                     | _ :: _ => []
                     end).
Proof.
  intros Hpages Hpage.
  assert (Hlen : 0 < Z.of_nat (length pages)) by (destruct pages; [done | cbn; lia]).
  unfold locate_element, doc_getitem.
  rewrite (proj2 (Z.ltb_lt _ _)) by lia.
  rewrite (proj2 (Z.leb_gt _ _)) by lia.
  rewrite (proj2 (Z.eqb_neq _ _)) by lia.
  pose proof (Z.mod_pos_bound (default 1 (e_page element) - 1)
                              (Z.of_nat (length pages)) Hlen) as Hmod.
  destruct (pages !! Z.to_nat _) as [page|] eqn:Hlook.
  - exists page. eexists. split; [done |]. cbn.
    replace (default 1 (e_page element) - 1 + 1) with (default 1 (e_page element)) by lia.
    destruct (search_for page (default "" (e_value element))); [done |].
    by rewrite app_nil_r.
  - apply lookup_ge_None in Hlook. lia.
Qed.

(** C1, at page 0.  On a document of one page, a record with page 0 whose
    value the page does not render yields a not-found entry with page 0; a
    record with page 0 whose value the page renders yields three entries of
    [text_positions], keyed under page -1, which the second pass neither
    blanks nor replaces.  The claim asks for no entry of either kind. *)
Theorem C1_page_zero_is_searched :
  first_pass [john_page] [iban_element 0] ([], [])
  = Some ([], [mkNotFound "IBAN" "FR1234567890123456789012345" 0
                          "FR9876543210987654321098765"])
  /\ (exists st,
        first_pass [john_page]
          [mkElement (Some "Person Name") (Some "John Doe") (Some "Jane Smith") (Some 0)]
          ([], []) = Some st
        /\ key_page <$> (fst <$> st.1) = [-1; -1; -1]
        /\ info_replacement <$> (snd <$> st.1) = ["Jane Smith"; "Jane"; "Smith"]
        /\ page_ops <$> second_pass st.1 [john_page] = [[ApplyRedactions]]).
Proof.
  split; [vm_compute; reflexivity |].
  eexists. split; [vm_compute; reflexivity |].
  repeat split; vm_compute; reflexivity.
Qed.

(** ** Replacements stored by the locator *)

Lemma truthy_nonempty (s : string) : Py.truthy s = true <-> s <> "".
Proof. destruct s; cbn; split; congruence. Qed.

Lemma split_from_nonempty (s tok : string) :
  Forall (fun token => token <> "") (Py.split_from tok s).
Proof.
  revert tok. induction s as [|c s IH]; intros tok; cbn.
  - destruct (Py.truthy tok) eqn:Htok; [| constructor].
    constructor; [by apply truthy_nonempty | constructor].
  - destruct (Py.isspace c); [| apply IH].
    destruct (Py.truthy tok) eqn:Htok; [| apply IH].
    constructor; [by apply truthy_nonempty | apply IH].
Qed.

Lemma first_in (l : list string) : l <> [] -> Py.first l ∈ l.
Proof. destruct l; [done |]. intros _. cbn. apply list_elem_of_here. Qed.

Lemma last_in (l : list string) : l <> [] -> Py.last l ∈ l.
Proof.
  induction l as [|a [|b l] IH]; [done | |]; intros _.
  - apply list_elem_of_here.
  - apply list_elem_of_further. apply IH. done.
Qed.

(** C5 as stated fails: a record whose replacement is the empty string is
    stored with the empty replacement. *)
Lemma C5_empty_replacement_stored :
  exists st,
    first_pass [john_page]
      [mkElement (Some "Person Name") (Some "John Doe") (Some "") (Some 1)]
      ([], []) = Some st
    /\ info_replacement <$> (snd <$> st.1) = [""].
Proof. eexists. split; vm_compute; reflexivity. Qed.

(** ** The redaction compositor *)

Section PageCalls.
Context {Content : Type} `{F : Fitz Content}.

(** The control flow of the insertion is the chain of the specification. *)
Lemma insert_replacement_first_success (font_map : gmap string string)
    (page : Page Content) (info : Info) :
  exists op,
    first_success font_map page info = Some op
    /\ insert_replacement font_map page info = page_call page op.
Proof.
  unfold first_success, insert_replacement, write_with_text_writer,
    font_attempts, font_chain, load_first, attempt, attempt_standalone.
  cbn [find_first].
  destruct (font_map !! si_font (info_span_info info)) as [ref_name|]; cbn.
  - destruct (insert_text_raises _ _ _ _ _ _); [| by eexists].
    repeat (destruct (font_raises _); [| by eexists]). by eexists.
  - repeat (destruct (font_raises _); [| by eexists]). by eexists.
Qed.

Lemma first_success_is_insertion (font_map : gmap string string)
    (page : Page Content) (info : Info) (op : PageOp) :
  first_success font_map page info = Some op -> is_insertion op = true.
Proof.
  unfold first_success, font_chain, attempt, attempt_standalone.
  cbn [find_first].
  destruct (font_map !! _) as [ref_name|]; cbn;
    repeat (match goal with
            | |- context [if ?b then _ else _] => destruct b
            end; cbn);
    by intros [= <-].
Qed.

Lemma insert_replacement_call (font_map : gmap string string)
    (page : Page Content) (info : Info) :
  exists op, is_insertion op = true
             /\ insert_replacement font_map page info = page_call page op.
Proof.
  destruct (insert_replacement_first_success font_map page info)
    as (op & Hfirst & Hcall).
  exists op. split; [| done]. by eapply first_success_is_insertion.
Qed.

(** The blanking loop adds one annotation for each rectangle, in order. *)
Lemma add_redact_annots_ops (rects : list Rect) (page : Page Content) :
  page_ops (foldl (fun p rect => page_call p (AddRedactAnnot rect)) page rects)
  = page_ops page ++ (AddRedactAnnot <$> rects).
Proof.
  revert page. induction rects as [|rect rects IH]; intros page; cbn.
  - by rewrite app_nil_r.
  - rewrite IH. cbn. by rewrite <- app_assoc.
Qed.

(** The insertion loop makes one inserting call for each entry of the page. *)
Lemma insertion_loop_ops (font_map : gmap string string) (page_num : nat)
    (text_positions : TextPositions) (page : Page Content) :
  exists inserted,
    page_ops (foldl (fun p kv =>
                       if key_startswith_page kv.1 page_num
                       then insert_replacement font_map p kv.2
                       else p)
                    page text_positions)
    = page_ops page ++ inserted
    /\ Forall (fun op => is_insertion op = true) inserted
    /\ length inserted = length (redact_rects text_positions page_num).
Proof.
  revert page. unfold redact_rects.
  induction text_positions as [|[key info] rest IH]; intros page; cbn [foldl].
  - exists []. by rewrite app_nil_r.
  - rewrite filter_cons. cbn [fst snd].
    destruct (key_startswith_page key page_num) eqn:Hkey.
    + destruct (insert_replacement_call font_map page info) as (op & Hop & ->).
      destruct (IH (page_call page op)) as (inserted & Hops & Hall & Hlen).
      exists (op :: inserted). rewrite Hops. cbn.
      rewrite <- app_assoc. split; [done |]. split; [by constructor |].
      rewrite decide_True by (cbn; congruence). cbn. by rewrite Hlen.
    + destruct (IH page) as (inserted & Hops & Hall & Hlen).
      exists inserted. rewrite decide_False by (cbn; congruence). done.
Qed.

(** The calls made on one page: the annotations of its matched rectangles,
    the commit, then insertions only. *)
Lemma process_page_ops (text_positions : TextPositions) (page_num : nat)
    (page : Page Content) :
  exists inserted,
    page_ops (process_page text_positions page_num page)
    = page_ops page
      ++ (AddRedactAnnot <$> redact_rects text_positions page_num)
      ++ [ApplyRedactions] ++ inserted
    /\ Forall (fun op => is_insertion op = true) inserted
    /\ length inserted = length (redact_rects text_positions page_num).
Proof.
  unfold process_page.
  destruct (insertion_loop_ops
              (build_font_map
                 (get_fonts
                    (page_call
                       (foldl (fun p rect => page_call p (AddRedactAnnot rect)) page
                              (redact_rects text_positions page_num))
                       ApplyRedactions)))
              page_num text_positions
              (page_call
                 (foldl (fun p rect => page_call p (AddRedactAnnot rect)) page
                        (redact_rects text_positions page_num))
                 ApplyRedactions))
    as (inserted & Hops & Hall & Hlen).
  exists inserted. split; [| done].
  rewrite Hops. cbn. rewrite add_redact_annots_ops.
  by rewrite <- !app_assoc.
Qed.

(** The loop over the page numbers rewrites every page once, in place. *)
Lemma second_pass_prefix (text_positions : TextPositions)
    (done todo : list (Page Content)) :
  foldl (fun doc page_num =>
           match doc !! page_num with
           | Some page => <[page_num := process_page text_positions page_num page]> doc
           | None => doc
           end)
        (done ++ todo) (seq (length done) (length todo))
  = done ++ imap (fun i => process_page text_positions (length done + i)) todo.
Proof.
  revert done. induction todo as [|page todo IH]; intros done; cbn.
  - done.
  - rewrite list_lookup_middle by done.
    rewrite insert_app_r_alt by done.
    rewrite Nat.sub_diag. cbn.
    rewrite Nat.add_0_r.
    rewrite (cons_middle _ done todo), app_assoc.
    specialize (IH (done ++ [process_page text_positions (length done) page])).
    rewrite length_app in IH. cbn in IH.
    rewrite Nat.add_1_r in IH. rewrite IH.
    rewrite <- app_assoc. cbn. do 2 f_equal.
    apply imap_ext. intros i p _. cbn. f_equal. lia.
Qed.

Lemma second_pass_lookup (text_positions : TextPositions)
    (pages : list (Page Content)) (page_num : nat) :
  second_pass text_positions pages !! page_num
  = process_page text_positions page_num <$> pages !! page_num.
Proof.
  unfold second_pass.
  pose proof (second_pass_prefix text_positions [] pages) as Hloop.
  cbn in Hloop. rewrite Hloop.
  by rewrite list_lookup_imap.
Qed.

End PageCalls.

(** ** The overlap-aware extractor *)

(** C9 as stated fails: a blank line is dropped from the output although no
    rectangle has been accepted before it, and its rectangle is recorded, so
    that the line drawn at the same place after it is dropped in turn. *)
Lemma C9_blank_line_dropped :
  process_line ([], []) blank_line = ([], [john_rect])
  /\ ~ (exists seen_rect : Rect,
          seen_rect ∈ ([] : list Rect)
          /\ (0.5 <? overlap_ratio john_rect seen_rect)%float = true)
  /\ process_line ([], [john_rect]) john_line = ([], [john_rect]).
Proof.
  split; [vm_compute; reflexivity |]. split; [| vm_compute; reflexivity].
  intros (seen_rect & Hin & _). by apply elem_of_nil in Hin.
Qed.

(** * Further properties *)

(** ** More on the occurrence locator *)

Lemma key_eqb_eq (a b : Key) : key_eqb a b = true <-> a = b.
Proof.
  unfold key_eqb. rewrite !andb_true_iff, Z.eqb_eq, String.eqb_eq.
  rewrite !FloatAxioms.Leibniz.eqb_spec.
  destruct a, b; cbn. split.
  - intros [[[-> ->] ->] ->]. done.
  - intros [= -> -> -> ->]. done.
Qed.

Section DictSet.
Context {V : Type}.

Lemma dict_set_entries (P : Key * V -> Prop) (d : list (Key * V)) (k : Key) (v : V) :
  Forall P d -> P (k, v) -> Forall P (Py.dict_set key_eqb d k v).
Proof.
  intros Hall Hnew. induction Hall as [|[k' v'] rest Hentry Hrest IH]; cbn.
  - by repeat constructor.
  - destruct (key_eqb k' k) eqn:Heq.
    + apply key_eqb_eq in Heq as ->. by constructor.
    + by constructor.
Qed.

End DictSet.

Lemma foldl_invariant {A B : Type} (I : A -> Prop) (f : A -> B -> A)
    (l : list B) (a : A) :
  (forall a b, b ∈ l -> I a -> I (f a b)) -> I a -> I (foldl f a l).
Proof.
  revert a. induction l as [|b l IH]; intros a Hstep Ha; cbn; [done |].
  apply IH.
  - intros a' b' Hb'. apply Hstep. by apply list_elem_of_further.
  - apply Hstep; [apply list_elem_of_here | done].
Qed.

Section FirstPass.
Context {Content : Type} `{F : Fitz Content}.

(** What the first pass keeps true of [text_positions] is what every single
    assignment [text_positions[key] = ...] keeps true. *)
Lemma first_pass_invariant (I : TextPositions -> Prop)
    (pages : list (Page Content)) (elements : list Element)
    (st st' : TextPositions * list NotFound) :
  I st.1 ->
  (forall element page text_positions pair rect,
      element ∈ elements ->
      default 1 (e_page element) - 1 < Z.of_nat (length pages) ->
      doc_getitem pages (default 1 (e_page element) - 1) = Some page ->
      pair ∈ elements_to_search (default "Unknown" (e_type element))
                                (default "" (e_value element))
                                (default "XXXXX" (e_replacement element)) ->
      rect ∈ search_for page pair.1 ->
      I text_positions ->
      I (store_instance page (default 1 (e_page element) - 1) pair.1 pair.2
                        text_positions rect)) ->
  first_pass pages elements st = Some st' ->
  I st'.1.
Proof.
  intros Hst Hstep.
  assert (Hsub : forall element, element ∈ elements -> element ∈ elements) by done.
  revert Hsub. generalize elements at 1 3 as rest.
  intros rest. revert st Hst.
  induction rest as [|element rest IH]; intros st Hst Hsub; cbn.
  - by intros [= <-].
  - destruct (locate_element pages st element) as [st1|] eqn:Hlocate; [| done].
    cbn. apply IH; [| intros e He; apply Hsub; by apply list_elem_of_further].
    revert Hlocate. unfold locate_element.
    destruct (Z.ltb_spec (default 1 (e_page element) - 1) (Z.of_nat (length pages)))
      as [Hlt|Hge]; [| by intros [= <-]].
    destruct (doc_getitem pages _) as [page|] eqn:Hpage; [| done].
    cbn. intros [= <-]. cbn.
    apply foldl_invariant; [| done].
    intros tp pair Hpair Htp. unfold search_pair.
    apply foldl_invariant; [| done].
    intros tp' rect Hrect Htp'.
    apply (Hstep element page tp' pair rect); auto.
    apply Hsub, list_elem_of_here.
Qed.

End FirstPass.

(** X3.  Every entry of [text_positions] comes from a reported record: its
    key carries the record's page index, which is below the page count, its
    text and replacement are one of the record's search pairs, its
    rectangle is one that [search_for] returned for that text on that page,
    the key's coordinates are those of the rectangle, and its style is the
    one probed at the rectangle. *)
Theorem first_pass_entries_found {Content} `{F : Fitz Content}
    (pages : list (Page Content)) (elements : list Element)
    (st : TextPositions * list NotFound) :
  first_pass pages elements ([], []) = Some st ->
  Forall (found_for pages elements) st.1.
Proof.
  apply (first_pass_invariant (Forall (found_for pages elements))); [constructor |].
  intros element page tp [search_text search_replacement] rect
         Helement Hlt Hpage Hpair Hrect Htp.
  unfold store_instance. apply dict_set_entries; [done |].
  exists element, page. cbn in *. repeat split; done.
Qed.

Lemma first_pass_entries_found_witness :
  Forall (found_for [john_page] [john_element; iban_element 1])
         (default ([], []) (first_pass [john_page] [john_element; iban_element 1]
                                       ([], []))).1.
Proof.
  apply (first_pass_entries_found [john_page] [john_element; iban_element 1]).
  vm_compute. reflexivity.
Defined.

Section SecondPass.
Context {Content : Type} `{F : Fitz Content}.

Lemma second_pass_imap (text_positions : TextPositions)
    (pages : list (Page Content)) :
  second_pass text_positions pages = imap (process_page text_positions) pages.
Proof.
  pose proof (second_pass_prefix text_positions [] pages) as Hloop.
  cbn in Hloop. exact Hloop.
Qed.

Lemma count_annotations_page (text_positions : TextPositions) (page_num : nat)
    (page : Page Content) :
  length (filter (fun op => is_annotation op = true)
                 (page_ops (process_page text_positions page_num page)))
  = (length (filter (fun op => is_annotation op = true) (page_ops page))
     + length (redact_rects text_positions page_num))%nat
  /\ length (filter (fun op => is_insertion op = true)
                    (page_ops (process_page text_positions page_num page)))
     = (length (filter (fun op => is_insertion op = true) (page_ops page))
        + length (redact_rects text_positions page_num))%nat.
Proof.
  destruct (process_page_ops text_positions page_num page)
    as (inserted & -> & Hall & Hlen).
  rewrite !filter_app, !length_app.
  assert (Hann : forall rects : list Rect,
             filter (fun op => is_annotation op = true) (AddRedactAnnot <$> rects)
             = AddRedactAnnot <$> rects).
  { intros rects. induction rects as [|r rects IH]; [done |].
    rewrite fmap_cons, filter_cons, decide_True by done. by rewrite IH. }
  assert (Hins : forall rects : list Rect,
             filter (fun op => is_insertion op = true) (AddRedactAnnot <$> rects) = []).
  { intros rects. induction rects as [|r rects IH]; [done |].
    rewrite fmap_cons, filter_cons, decide_False by done. by rewrite IH. }
  assert (Hall_ins : filter (fun op => is_insertion op = true) inserted = inserted).
  { clear Hlen. induction Hall as [|op ops Hop Hops IH]; [done |].
    rewrite filter_cons, decide_True by done. by rewrite IH. }
  assert (Hall_ann : filter (fun op => is_annotation op = true) inserted = []).
  { clear Hlen Hall_ins. induction Hall as [|op ops Hop Hops IH]; [done |].
    rewrite filter_cons, decide_False; [done |]. destruct op; cbn in *; congruence. }
  rewrite Hann, Hins, Hall_ins, Hall_ann.
  rewrite !filter_cons, !filter_nil, !decide_False by done.
  cbn. rewrite length_fmap, Hlen. split; lia.
Qed.

End SecondPass.

Lemma sum_indicator (n : nat) (j : Z) :
  0 <= j < Z.of_nat n ->
  sum_list_with (fun i : nat => if (j =? Z.of_nat i) then 1%nat else 0%nat) (seq 0 n)
  = 1%nat.
Proof.
  induction n as [|n IH]; intros Hj; [lia |].
  rewrite seq_S, sum_list_with_app. cbn.
  destruct (Z.eqb_spec j (Z.of_nat n)) as [->|Hne].
  - assert (Hzero : forall m, (m <= n)%nat ->
               sum_list_with (fun i : nat => if (Z.of_nat n =? Z.of_nat i) then 1%nat else 0%nat)
                             (seq 0 m) = 0%nat).
    { induction m as [|m IHm]; [done |]. intros Hm.
      rewrite seq_S, sum_list_with_app. cbn.
      rewrite IHm by lia.
      destruct (Z.eqb_spec (Z.of_nat n) (Z.of_nat m)); lia. }
    rewrite Hzero by lia. done.
  - rewrite IH by lia. done.
Qed.

Lemma sum_list_with_add {A : Type} (f g : A -> nat) (l : list A) :
  sum_list_with (fun a => (f a + g a)%nat) l
  = (sum_list_with f l + sum_list_with g l)%nat.
Proof. induction l as [|a l IH]; cbn; [done | rewrite IH; lia]. Qed.

Lemma sum_list_with_ext {A : Type} (f g : A -> nat) (l : list A) :
  (forall a, f a = g a) -> sum_list_with f l = sum_list_with g l.
Proof. intros Hfg. induction l as [|a l IH]; cbn; [done | by rewrite Hfg, IH]. Qed.

Lemma redact_rects_cons (key : Key) (info : Info) (rest : TextPositions)
    (page_num : nat) :
  length (redact_rects ((key, info) :: rest) page_num)
  = ((if (key_page key =? Z.of_nat page_num)%Z then 1 else 0)
     + length (redact_rects rest page_num))%nat.
Proof.
  unfold redact_rects, key_startswith_page. rewrite filter_cons. cbn [fst].
  destruct (key_page key =? Z.of_nat page_num) eqn:Heq.
  - by rewrite decide_True.
  - by rewrite decide_False.
Qed.

(** Every entry whose key names a page of the document is collected by
    exactly one page of the second pass. *)
Lemma redact_rects_total (text_positions : TextPositions) (n : nat) :
  Forall (fun entry : Key * Info => 0 <= key_page entry.1 < Z.of_nat n) text_positions ->
  sum_list_with (fun i => length (redact_rects text_positions i)) (seq 0 n)
  = length text_positions.
Proof.
  induction 1 as [|[key info] rest Hkey Hrest IH]; cbn [length].
  - induction (seq 0 n) as [|i l IHl]; [done |]. cbn in *. by rewrite IHl.
  - rewrite (sum_list_with_ext _
               (fun i => ((if (key_page key =? Z.of_nat i)%Z then 1 else 0)
                          + length (redact_rects rest i))%nat))
      by (intros; apply redact_rects_cons).
    rewrite sum_list_with_add, sum_indicator, IH by done. done.
Qed.

Section NotFoundCount.
Context {Content : Type} `{F : Fitz Content}.

Lemma locate_element_not_found (pages : list (Page Content))
    (st st' : TextPositions * list NotFound) (element : Element) :
  locate_element pages st element = Some st' ->
  st'.2 = st.2
  \/ st'.2 = st.2 ++ [mkNotFound (default "Unknown" (e_type element))
                                 (default "" (e_value element))
                                 (default 1 (e_page element))
                                 (default "XXXXX" (e_replacement element))].
Proof.
  unfold locate_element.
  destruct (_ <? _); [| intros [= <-]; by left].
  destruct (doc_getitem pages _) as [page|]; [| done].
  cbn. intros [= <-]. cbn.
  destruct (search_for page _); [right | by left].
  do 5 f_equal. lia.
Qed.

(** Each not-found entry is the entry of a reported element, in the order of
    the report. *)
Lemma first_pass_not_found (pages : list (Page Content)) (elements : list Element)
    (st st' : TextPositions * list NotFound) :
  first_pass pages elements st = Some st' ->
  exists missing,
    missing `sublist_of` elements
    /\ st'.2 = st.2 ++ ((fun element =>
                           mkNotFound (default "Unknown" (e_type element))
                                      (default "" (e_value element))
                                      (default 1 (e_page element))
                                      (default "XXXXX" (e_replacement element)))
                          <$> missing).
Proof.
  revert st. induction elements as [|element rest IH]; intros st; cbn.
  - intros [= <-]. exists []. by rewrite app_nil_r.
  - destruct (locate_element pages st element) as [st1|] eqn:Hlocate; [| done].
    cbn. intros Hrest. destruct (IH st1 Hrest) as (missing & Hsub & Heq).
    destruct (locate_element_not_found _ _ _ _ Hlocate) as [Hsame | Hadd].
    + exists missing. split; [by apply sublist_cons |]. by rewrite Heq, Hsame.
    + exists (element :: missing). split; [by apply sublist_skip |].
      rewrite Heq, Hadd, <- app_assoc. done.
Qed.

End NotFoundCount.

Section Counting.
Context {Content : Type} `{F : Fitz Content}.

Lemma count_calls_imap (text_positions : TextPositions) (kind : PageOp -> bool)
    (pages : list (Page Content)) (k : nat) :
  (forall page_num page,
      length (filter (fun op => kind op = true)
                     (page_ops (process_page text_positions page_num page)))
      = (length (filter (fun op => kind op = true) (page_ops page))
         + length (redact_rects text_positions page_num))%nat) ->
  count_calls kind (imap (fun i => process_page text_positions (k + i)) pages)
  = (count_calls kind pages
     + sum_list_with (fun i => length (redact_rects text_positions i))
                     (seq k (length pages)))%nat.
Proof.
  intros Hpage. unfold count_calls.
  revert k. induction pages as [|page pages IH]; intros k; [done |].
  rewrite imap_cons. cbn. rewrite Nat.add_0_r, Hpage.
  rewrite (imap_ext _ (fun i => process_page text_positions (S k + i)))
    by (intros; cbn; f_equal; lia).
  rewrite IH. lia.
Qed.

Lemma count_calls_second_pass (text_positions : TextPositions)
    (kind : PageOp -> bool) (pages : list (Page Content)) :
  (forall page_num page,
      length (filter (fun op => kind op = true)
                     (page_ops (process_page text_positions page_num page)))
      = (length (filter (fun op => kind op = true) (page_ops page))
         + length (redact_rects text_positions page_num))%nat) ->
  count_calls kind (second_pass text_positions pages)
  = (count_calls kind pages
     + sum_list_with (fun i => length (redact_rects text_positions i))
                     (seq 0 (length pages)))%nat.
Proof.
  intros Hpage. rewrite second_pass_imap.
  rewrite <- (count_calls_imap text_positions kind pages 0 Hpage).
  unfold count_calls. f_equal.
Qed.

Lemma first_pass_key_pages (pages : list (Page Content)) (elements : list Element)
    (st : TextPositions * list NotFound) :
  Forall (fun element => 1 <= default 1 (e_page element)) elements ->
  first_pass pages elements ([], []) = Some st ->
  Forall (fun entry : Key * Info =>
            0 <= key_page entry.1 < Z.of_nat (length pages)) st.1.
Proof.
  intros Hpages.
  apply (first_pass_invariant
           (Forall (fun entry : Key * Info =>
                      0 <= key_page entry.1 < Z.of_nat (length pages))));
    [constructor |].
  intros element page tp pair rect Helement Hlt _ _ _ Htp.
  unfold store_instance. apply dict_set_entries; [done |]. cbn.
  rewrite Forall_forall in Hpages. specialize (Hpages element Helement).
  cbn in Hpages. lia.
Qed.

End Counting.

(** X8.  When no record names a page below 1, [total_replacements] is the
    number of redaction annotations the run adds over all pages, and also
    the number of insertions it makes: every stored occurrence is blanked
    and replaced, on one page. *)
Theorem replacements_all_applied {Content} `{F : Fitz Content}
    (analysis_result result : AnalysisResult) (doc out : Document Content) :
  anonymize_pdf analysis_result doc = Some (result, out) ->
  Forall (fun element => 1 <= default 1 (e_page element))
         (default [] (sensitive_elements analysis_result)) ->
  exists summary,
    anonymization_summary result = Some summary
    /\ count_calls is_annotation (doc_pages out)
       = (count_calls is_annotation (doc_pages doc) + total_replacements summary)%nat
    /\ count_calls is_insertion (doc_pages out)
       = (count_calls is_insertion (doc_pages doc) + total_replacements summary)%nat.
Proof.
  unfold anonymize_pdf. intros Hrun Hpages.
  destruct (first_pass _ _ _) as [st|] eqn:Hfirst; [| done].
  cbn in Hrun. injection Hrun as <- <-.
  eexists. split; [reflexivity |]. cbn [doc_pages total_replacements].
  pose proof (first_pass_key_pages _ _ _ Hpages Hfirst) as Hkeys.
  rewrite !count_calls_second_pass by (intros; apply count_annotations_page).
  by rewrite redact_rects_total.
Qed.

Lemma replacements_all_applied_witness :
  let run := outcome (report [john_element; iban_element 1]) titled_doc in
  exists summary,
    anonymization_summary run.1 = Some summary
    /\ count_calls is_annotation (doc_pages run.2)
       = (0 + total_replacements summary)%nat
    /\ count_calls is_insertion (doc_pages run.2)
       = (0 + total_replacements summary)%nat.
Proof.
  cbv zeta.
  apply (replacements_all_applied
           (report [john_element; iban_element 1])
           (outcome (report [john_element; iban_element 1]) titled_doc).1 titled_doc
           (outcome (report [john_element; iban_element 1]) titled_doc).2).
  - vm_compute. reflexivity.
  - repeat (constructor; [cbn; lia |]). constructor.
Defined.

(** X6.  In the result of a run, the not-found entries are those of some of
    the reported records, in the order of the report, at most one for each:
    [not_found_count] is their number and never exceeds
    [total_elements_found]; [not_found_in_pdf] is set to them when there is
    one and is left as received otherwise; [sensitive_elements] is returned
    as received. *)
Theorem summary_not_found {Content} `{F : Fitz Content}
    (analysis_result result : AnalysisResult) (doc out : Document Content) :
  anonymize_pdf analysis_result doc = Some (result, out) ->
  exists summary missing,
    anonymization_summary result = Some summary
    /\ missing `sublist_of` default [] (sensitive_elements analysis_result)
    /\ not_found_count summary = length missing
    /\ (not_found_count summary <= total_elements_found summary)%nat
    /\ not_found_in_pdf result
       = match missing with
         | [] => not_found_in_pdf analysis_result
         | _ :: _ => Some (not_found_entry <$> missing)
         end
    /\ sensitive_elements result = sensitive_elements analysis_result.
Proof.
  unfold anonymize_pdf. intros Hrun.
  destruct (first_pass _ _ _) as [st|] eqn:Hfirst; [| done].
  cbn in Hrun. injection Hrun as <- _.
  destruct (first_pass_not_found _ _ _ _ Hfirst) as (missing & Hsub & Heq).
  cbn in Heq. eexists. exists missing. split; [reflexivity |]. cbn.
  split; [done |]. rewrite Heq, length_fmap.
  split; [done |]. split; [by apply sublist_length |].
  split; [| done]. by destruct missing.
Qed.

Lemma summary_not_found_witness :
  let analysis_result := report [jane_doe_john; john_element; iban_element 1] in
  let run := outcome analysis_result titled_doc in
  exists summary missing,
    anonymization_summary run.1 = Some summary
    /\ missing `sublist_of` [jane_doe_john; john_element; iban_element 1]
    /\ not_found_count summary = length missing
    /\ (not_found_count summary <= total_elements_found summary)%nat
    /\ not_found_in_pdf run.1
       = match missing with
         | [] => None
         | _ :: _ => Some (not_found_entry <$> missing)
         end
    /\ sensitive_elements run.1 = sensitive_elements analysis_result.
Proof.
  cbv zeta.
  apply (summary_not_found
           (report [jane_doe_john; john_element; iban_element 1])
           (outcome (report [jane_doe_john; john_element; iban_element 1]) titled_doc).1
           titled_doc
           (outcome (report [jane_doe_john; john_element; iban_element 1]) titled_doc).2).
  vm_compute. reflexivity.
Defined.

Lemma first_pass_all_beyond {Content} `{F : Fitz Content}
    (pages : list (Page Content)) (elements : list Element)
    (st : TextPositions * list NotFound) :
  Forall (fun element => Z.of_nat (length pages) < default 1 (e_page element))
         elements ->
  first_pass pages elements st = Some st.
Proof.
  induction 1 as [|element rest Helement Hrest IH]; cbn; [done |].
  by rewrite locate_element_beyond_last_page.
Qed.

(** X2.  On a document with at least one page, when every record names a
    page beyond the last one, the run stores no occurrence and no not-found
    entry, leaves [not_found_in_pdf] as it received it, and makes a single
    call on each page: [apply_redactions]. *)
Theorem records_beyond_last_page_skipped {Content} `{F : Fitz Content}
    (analysis_result : AnalysisResult) (doc : Document Content) :
  doc_pages doc <> [] ->
  Forall (fun element => Z.of_nat (length (doc_pages doc)) < default 1 (e_page element))
         (default [] (sensitive_elements analysis_result)) ->
  exists result out summary,
    anonymize_pdf analysis_result doc = Some (result, out)
    /\ anonymization_summary result = Some summary
    /\ total_replacements summary = 0%nat
    /\ not_found_count summary = 0%nat
    /\ not_found_in_pdf result = not_found_in_pdf analysis_result
    /\ doc_pages out = (fun page => page_call page ApplyRedactions) <$> doc_pages doc.
Proof.
  intros _ Hbeyond. unfold anonymize_pdf.
  rewrite first_pass_all_beyond by done. cbn [mbind option_bind].
  do 3 eexists. refine (conj eq_refl _).
  cbn [anonymization_summary]. refine (conj eq_refl _).
  cbn [total_replacements not_found_count not_found_in_pdf doc_pages fst snd length].
  do 3 (split; [reflexivity |]).
  rewrite second_pass_imap, <- imap_const.
  apply imap_ext. intros page_num page _. reflexivity.
Qed.

Lemma records_beyond_last_page_skipped_witness :
  exists result out summary,
    anonymize_pdf (report [iban_element 7; mkElement None None None (Some 2)])
                  titled_doc = Some (result, out)
    /\ anonymization_summary result = Some summary
    /\ total_replacements summary = 0%nat
    /\ not_found_count summary = 0%nat
    /\ not_found_in_pdf result = None
    /\ doc_pages out = [page_call john_page ApplyRedactions].
Proof.
  apply (records_beyond_last_page_skipped
           (report [iban_element 7; mkElement None None None (Some 2)]) titled_doc).
  - discriminate.
  - repeat (constructor; [cbn; lia |]). constructor.
Defined.

Lemma find_first_bind {A B C : Type} (f : B -> option C) (g : A -> list B)
    (l : list A) :
  find_first (fun a => find_first f (g a)) l = find_first f (a ← l; g a).
Proof.
  induction l as [|a l IH]; [done |]. cbn.
  rewrite IH. clear IH. induction (g a) as [|b bs IHb]; [done |]. cbn.
  by destruct (f b).
Qed.

Lemma find_first_find {A B : Type} (P : A -> bool) (g : A -> B) (l : list A) :
  find_first (fun a => if P a then Some (g a) else None) l = g <$> List.find P l.
Proof. induction l as [|a l IH]; [done |]. cbn. by destruct (P a). Qed.

(** X9.  The style probe returns the style of the first span, in the order
    of the blocks, of their lines and of their spans, whose box intersects
    the matched rectangle (blocks without lines are passed over), and the
    style "helv", size 10, colour 0 when no span does. *)
Theorem probe_style_first_intersecting {Content} `{F : Fitz Content}
    (page : Page Content) (rect : Rect) :
  probe_style page rect
  = match List.find (fun span => rect_intersects (span_bbox span) rect)
                    (all_spans (get_text_dict page)) with
    | Some span => style_of span
    | None => mkSpanInfo "helv" 10%float 0
    end.
Proof.
  unfold probe_style, all_spans.
  assert (Hblock : forall block,
             probe_block rect block
             = find_first (probe_span rect)
                          (line ← default [] (block_lines block); line_spans line)).
  { intros block. unfold probe_block.
    destruct (block_lines block) as [lines|]; [| reflexivity]. cbn [default].
    apply (find_first_bind (probe_span rect) line_spans). }
  assert (Hblocks : forall text_blocks,
             find_first (probe_block rect) text_blocks
             = find_first (fun block =>
                             find_first (probe_span rect)
                               (line ← default [] (block_lines block); line_spans line))
                          text_blocks).
  { intros text_blocks. induction text_blocks as [|b bs IH]; [done |].
    cbn. by rewrite Hblock, IH. }
  rewrite Hblocks, find_first_bind.
  unfold probe_span.
  rewrite (find_first_find (fun span => rect_intersects (span_bbox span) rect) style_of).
  by destruct (List.find _ _).
Qed.

Lemma split_from_tokens (s tok : string) :
  Forall (fun c => Py.isspace c = false) (list_ascii_of_string tok) ->
  Forall is_token (Py.split_from tok s).
Proof.
  revert tok. induction s as [|c s IH]; intros tok Htok; cbn.
  - destruct (Py.truthy tok) eqn:Ht; [| constructor].
    constructor; [| constructor]. split; [by apply truthy_nonempty | done].
  - destruct (Py.isspace c) eqn:Hc.
    + destruct (Py.truthy tok) eqn:Ht; [| by apply IH].
      constructor; [| by apply IH]. split; [by apply truthy_nonempty | done].
    + apply IH.
      clear IH. induction tok as [|a tok IHtok]; cbn.
      * by repeat constructor.
      * apply Forall_cons in Htok as [Ha Htok]. constructor; auto.
Qed.

(** X10.  The search pairs of a record start with the full pair; every
    further pair is made of a token of the value and a token of the
    replacement, each of them not empty and free of whitespace. *)
Theorem split_pairs_are_tokens (element_type original_text replacement : string) :
  exists extra,
    elements_to_search element_type original_text replacement
    = (original_text, replacement) :: extra
    /\ Forall (fun pair : string * string =>
                 is_token pair.1 /\ pair.1 ∈ Py.split original_text
                 /\ is_token pair.2 /\ pair.2 ∈ Py.split replacement) extra.
Proof.
  unfold elements_to_search.
  destruct (is_name_type element_type); [| by exists []].
  destruct (Nat.leb_spec 2 (length (Py.split original_text))) as [Hn|Hn];
    [| by exists []].
  destruct (Nat.leb_spec 2 (length (Py.split replacement))) as [Hr|Hr];
    [| by exists []].
  cbn [andb app]. eexists. split; [reflexivity |].
  assert (Hparts : forall s, (2 <= length (Py.split s))%nat ->
             Forall is_token (Py.split s) /\ Py.split s <> []).
  { intros s Hs. split; [apply split_from_tokens; constructor |].
    intros Heq. rewrite Heq in Hs. cbn in Hs. lia. }
  destruct (Hparts _ Hn) as [Hnt Hnn], (Hparts _ Hr) as [Hrt Hrn].
  rewrite Forall_forall in Hnt, Hrt.
  pose proof (first_in _ Hnn). pose proof (last_in _ Hnn).
  pose proof (first_in _ Hrn). pose proof (last_in _ Hrn).
  apply Forall_cons; split; [| apply Forall_cons; split; [| constructor]];
    cbn; split_and!; auto.
Qed.

(** X11.  Whichever font strategy succeeds, the insertion makes one call on
    the page, and that call draws the stored replacement in the probed size
    at the point (rect.x0, rect.y0 + 0.8 * size): the rectangle's left edge,
    0.8 times the probed size below its top. *)
Theorem insert_replacement_draws {Content} `{F : Fitz Content}
    (font_map : gmap string string) (page : Page Content) (info : Info) :
  let rect := info_rect info in
  let size := si_size (info_span_info info) in
  exists op,
    insert_replacement font_map page info = page_call page op
    /\ drawn op = Some ((x0 rect, (y0 rect + size * 0.8)%float),
                        info_replacement info, size).
Proof.
  cbv zeta.
  destruct (insert_replacement_first_success font_map page info)
    as (op & Hfirst & Hcall).
  exists op. split; [done |]. revert Hfirst.
  unfold first_success, font_chain, attempt, attempt_standalone, insertion_point.
  cbn [find_first].
  destruct (font_map !! _) as [ref_name|]; cbn;
    repeat (match goal with
            | |- context [if ?b then _ else _] => destruct b
            end; cbn);
    by intros [= <-].
Qed.

(** X12.  [font_map] gives for a base font name the reference name of the
    last tuple of [get_fonts] that has at least five entries and this base
    font; shorter tuples are passed over. *)
Theorem build_font_map_lookup (page_fonts : list (list string)) (basefont : string) :
  build_font_map page_fonts !! basefont
  = (fun font_info => nth 4 font_info "")
      <$> List.find (fun font_info =>
                       (5 <=? length font_info)%nat
                       && String.eqb (nth 3 font_info "") basefont)
                    (rev page_fonts).
Proof.
  unfold build_font_map.
  induction page_fonts as [|font_info rest IH] using rev_ind;
    [apply lookup_empty |].
  rewrite foldl_snoc, rev_unit. cbn [List.find].
  destruct (5 <=? length font_info)%nat; cbn; [| done].
  destruct (String.eqb_spec (nth 3 font_info "") basefont) as [<-|Hne].
  - by rewrite lookup_insert_eq.
  - by rewrite lookup_insert_ne.
Qed.

Section ExtractorInvariants.
Context {Content : Type} `{F : Fitz Content}.

Lemma process_line_kept (before : list Line) (st : list string * list Rect)
    (line : Line) :
  lines_kept before st -> lines_kept (before ++ [line]) (process_line st line).
Proof.
  intros (Htexts & Hrects & Hblank). unfold lines_kept, process_line.
  rewrite fmap_app, omap_app. cbn [fmap list_fmap omap list_omap fst snd].
  split; [| split].
  - destruct (_ && _); [by apply sublist_app | by apply sublist_inserts_r].
  - destruct (line_bbox line) as [line_rect|]; cbn.
    + destruct (is_overlapping line_rect st.2);
        [by apply sublist_inserts_r | by apply sublist_app].
    + by rewrite app_nil_r.
  - destruct (Py.truthy (Py.strip (line_text_of line))) eqn:Htext; cbn; [| done].
    destruct (negb _); [| done].
    apply Forall_app. split; [done |]. constructor; [| done].
    by apply truthy_nonempty.
Qed.

Lemma process_lines_kept (before lines : list Line) (st : list string * list Rect) :
  lines_kept before st -> lines_kept (before ++ lines) (foldl process_line st lines).
Proof.
  revert before st. induction lines as [|line lines IH]; intros before st Hst; cbn.
  - by rewrite app_nil_r.
  - rewrite (cons_middle line before lines), app_assoc.
    apply IH. by apply process_line_kept.
Qed.

Lemma process_blocks_kept (text_blocks : list Block) (before : list Line)
    (st : list string * list Rect) :
  lines_kept before st ->
  lines_kept (before ++ all_lines text_blocks) (foldl process_block st text_blocks).
Proof.
  revert before st.
  induction text_blocks as [|block rest IH]; intros before st Hst; cbn.
  - by rewrite app_nil_r.
  - unfold all_lines. cbn. fold (all_lines rest). rewrite app_assoc. apply IH.
    unfold process_block. destruct (block_lines block) as [lines|]; cbn.
    + by apply process_lines_kept.
    + by rewrite app_nil_r.
Qed.

End ExtractorInvariants.

(** X13.  The text extracted from a page joins, with newlines, texts of
    lines of the page in their order: the extractor drops lines, it neither
    reorders nor adds any; no emitted text is blank, and the accepted
    rectangles are bounding boxes of the page's lines, in their order. *)
Theorem extracted_lines_kept {Content} `{F : Fitz Content} (page : Page Content) :
  let text_lines := all_lines (get_text_dict_sorted page) in
  let st := foldl process_block ([], []) (get_text_dict_sorted page) in
  extract_page page = Py.join NL st.1
  /\ st.1 `sublist_of` (line_text_of <$> text_lines)
  /\ st.2 `sublist_of` omap line_bbox text_lines
  /\ Forall (fun text => Py.strip text <> "") st.1.
Proof.
  cbv zeta. split; [done |].
  apply (process_blocks_kept (get_text_dict_sorted page) [] ([], [])).
  repeat split; cbn; [apply sublist_nil | apply sublist_nil | constructor].
Qed.

(** X14.  A line whose rectangle has no positive area is never taken for an
    overlay, whatever rectangles have been accepted: its overlap ratio is 0
    and no division takes place. *)
Theorem no_area_never_overlay {Content} `{F : Fitz Content}
    (line_rect : Rect) (seen_positions : list Rect) :
  (0 <? rect_get_area line_rect)%float = false ->
  is_overlapping line_rect seen_positions = false.
Proof.
  intros Harea. unfold is_overlapping.
  induction seen_positions as [|seen_rect rest IH]; [done |].
  cbn. rewrite IH. unfold overlaps, overlap_ratio. rewrite Harea.
  by rewrite andb_false_r.
Qed.

Lemma no_area_never_overlay_witness :
  is_overlapping flat_rect [john_rect; flat_rect] = false.
Proof.
  apply (no_area_never_overlay flat_rect [john_rect; flat_rect]).
  vm_compute. reflexivity.
Defined.

(** X15.  When the text of every page is blank, the extracted text is the
    empty string: a page without text gets no page marker. *)
Theorem blank_document_extracts_nothing {Content} `{F : Fitz Content}
    (pages : list (Page Content)) :
  Forall (fun page => Py.strip (extract_page page) = "") pages ->
  extract_text_from_pdf pages = "".
Proof.
  intros Hblank. unfold extract_text_from_pdf.
  assert (Hnone : forall k,
             filter (fun nt : nat * string => Py.truthy (Py.strip nt.2) = true)
                    (imap (fun page_num page => (S (k + page_num), extract_page page)) pages)
             = []).
  { induction Hblank as [|page rest Hpage Hrest IH]; intros k; [done |].
    rewrite imap_cons, filter_cons. cbn [snd]. rewrite Hpage. cbn.
    rewrite (imap_ext _ (fun page_num page => (S (S k + page_num), extract_page page)))
      by (intros; cbn; do 2 f_equal; lia).
    apply IH. }
  specialize (Hnone 0%nat). cbn in Hnone. by rewrite Hnone.
Qed.

Lemma blank_document_extracts_nothing_witness :
  extract_text_from_pdf [blank_page; blank_page] = "".
Proof.
  apply (blank_document_extracts_nothing [blank_page; blank_page]).
  repeat (constructor; [vm_compute; reflexivity |]). constructor.
Defined.

Lemma slice_to_split (n : nat) (s : string) :
  exists rest,
    s = slice_to n s +:+ rest
    /\ String.length (slice_to n s) = Nat.min n (String.length s)
    /\ ((String.length s <= n)%nat -> rest = "")
    /\ ((n < String.length s)%nat -> rest <> "").
Proof.
  revert s. induction n as [|n IH]; intros s.
  - exists s. cbn. destruct s; cbn; repeat split; try done; lia.
  - destruct s as [|c s]; cbn.
    + exists "". repeat split; try done; lia.
    + destruct (IH s) as (rest & Heq & Hlen & Hle & Hgt).
      exists rest.
      split; [change (String c s = String c (slice_to n s +:+ rest));
              by f_equal |].
      split; [simpl; by rewrite Hlen |].
      split; intros ?; [apply Hle | apply Hgt]; simpl in *; lia.
Qed.

(** X16.  The text handed to the oracle is a prefix of the extracted text of
    at most 8000 characters; the truncation flag is false exactly when
    nothing was cut, and when it is true the prefix has 8000 characters and
    some text was left out. *)
Theorem analysis_text_prefix (full_text : string) :
  exists rest,
    full_text = (analysis_text full_text).1 +:+ rest
    /\ (Z.of_nat (String.length (analysis_text full_text).1) <= 8000)
    /\ ((analysis_text full_text).2 = false /\ rest = ""
        \/ (analysis_text full_text).2 = true /\ rest <> ""
           /\ Z.of_nat (String.length (analysis_text full_text).1) = 8000).
Proof.
  destruct (slice_to_split text_budget full_text) as (rest & Heq & Hlen & Hle & Hgt).
  exists rest. unfold analysis_text. cbn [fst snd].
  assert (Hbudget : Z.of_nat text_budget = 8000) by (unfold text_budget; lia).
  split; [done |]. split; [lia |].
  destruct (Nat.ltb_spec text_budget (String.length full_text)).
  - right. split; [done |]. split; [auto | lia].
  - left. auto.
Qed.

(** X17.  An entity whose [enabled] flag is false does not reach the prompt:
    the entity list is the one built without it. *)
Theorem disabled_entity_left_out (before after : list Entity) (entity : Entity) :
  entity_enabled entity = Some false ->
  build_entity_list_prompt (Some (before ++ entity :: after))
  = build_entity_list_prompt (Some (before ++ after)).
Proof.
  intros Hoff. unfold build_entity_list_prompt.
  change (default [] (Some (before ++ entity :: after))) with (before ++ entity :: after).
  change (default [] (Some (before ++ after))) with (before ++ after).
  rewrite !filter_app, filter_cons, decide_False; [done |].
  rewrite Hoff. done.
Qed.

Lemma disabled_entity_left_out_witness :
  build_entity_list_prompt
    (Some ([iban_entity None] ++ iban_entity (Some false) :: [iban_entity (Some true)]))
  = build_entity_list_prompt (Some ([iban_entity None] ++ [iban_entity (Some true)])).
Proof.
  apply (disabled_entity_left_out [iban_entity None] [iban_entity (Some true)]
                                  (iban_entity (Some false))).
  reflexivity.
Defined.

(** X18.  Whichever exception of class [Exception] the validation, the
    opening of the upload or the processing raises, [process_pdf] raises an
    [HTTPException] whose status is 400, 500 or 502; the status 413 of the
    size check never leaves it. *)
Theorem process_pdf_statuses {R : Type} (http_str : Z -> string -> string)
    (filename : option string) (content_length : N) (opened : Outcome nat)
    (processing : Outcome R) (e : Raised) :
  process_pdf http_str filename content_length opened processing = Raises e ->
  exists status_code detail,
    e = HTTPException status_code detail
    /\ (status_code = 400 \/ status_code = 500 \/ status_code = 502).
Proof.
  unfold process_pdf.
  destruct filename as [name|]; [| intros [= <-]; eauto 6].
  destruct (negb (Py.truthy name)); [intros [= <-]; eauto 6 |].
  destruct (negb (endswith _ _)); [intros [= <-]; eauto 6 |].
  destruct (process_body _ _ _ _) as [r|e']; [done |].
  intros [= <-]. destruct e'; cbn; eauto 6.
Qed.

Lemma process_pdf_statuses_witness :
  exists status_code detail,
    HTTPException 502 "AI service error: timeout" = HTTPException status_code detail
    /\ (status_code = 400 \/ status_code = 500 \/ status_code = 502).
Proof.
  apply (process_pdf_statuses (R := unit) status_and_detail (Some "a.pdf") 10
           (Returns 1%nat) (Raises (RequestException "timeout"))).
  vm_compute. reflexivity.
Defined.

(** X19.  For an upload with an accepted file name, the rejections raised
    inside the [try] (a file above 50 MB with status 413; an empty file, a
    file that does not open as a PDF or a PDF without pages with status
    400) are caught by the handler of [Exception]: the caller gets status
    500 and the detail "Processing failed: " followed by the text of the
    rejection. *)
Theorem upload_rejections_answer_500 {R : Type} (http_str : Z -> string -> string)
    (filename : option string) (content_length : N) (opened : Outcome nat)
    (processing : Outcome R) :
  pdf_name filename ->
  (50 * 1024 * 1024 < content_length)%N \/ content_length = 0%N
  \/ opened = Returns O \/ (exists e, opened = Raises e) ->
  exists status_code detail,
    process_body http_str content_length opened processing
    = Raises (HTTPException status_code detail)
    /\ (status_code = 413 \/ status_code = 400)
    /\ process_pdf http_str filename content_length opened processing
       = Raises (HTTPException 500
                   ("Processing failed: " +:+ http_str status_code detail)).
Proof.
  intros (name & -> & Hname & Hext) Hrejected.
  unfold process_pdf. rewrite Hext.
  apply truthy_nonempty in Hname. rewrite Hname. cbn [negb].
  assert (Hbody : exists status_code detail,
             process_body http_str content_length opened processing
             = Raises (HTTPException status_code detail)
             /\ (status_code = 413 \/ status_code = 400)).
  { unfold process_body, MAX_UPLOAD.
    destruct (N.ltb_spec (50 * 1024 * 1024) content_length); [eauto 6 |].
    destruct (N.eqb_spec content_length 0); [eauto 6 |].
    destruct Hrejected as [? | [? | [-> | [e ->]]]]; [lia | done | |];
      cbn; eauto 6. }
  destruct Hbody as (status_code & detail & Hbody & Hstatus).
  exists status_code, detail. rewrite Hbody. cbn. auto.
Qed.

Lemma upload_rejections_answer_500_witness :
  process_pdf (R := unit) status_and_detail
              (Some "Scan.PDF") (51 * 1024 * 1024) (Returns 3%nat) (Returns tt)
  = Raises (HTTPException 500 "Processing failed: 413: File too large (max 50MB)").
Proof.
  destruct (upload_rejections_answer_500 (R := unit) status_and_detail
              (Some "Scan.PDF") (51 * 1024 * 1024) (Returns 3%nat) (Returns tt))
    as (status_code & detail & Hbody & _ & Hanswer).
  - exists "Scan.PDF". split; [reflexivity |].
    split; [discriminate | vm_compute; reflexivity].
  - left. vm_compute. reflexivity.
  - vm_compute in Hbody. injection Hbody as <- <-. exact Hanswer.
Defined.

Section Returns.
Context {Content : Type} `{F : Fitz Content}.

Lemma doc_getitem_nonempty (pages : list (Page Content)) (i : Z) :
  pages <> [] -> i < Z.of_nat (length pages) -> is_Some (doc_getitem pages i).
Proof.
  intros Hpages Hi. unfold doc_getitem.
  assert (Hlen : 0 < Z.of_nat (length pages)) by (destruct pages; [done | cbn; lia]).
  rewrite (proj2 (Z.leb_gt _ _)) by lia.
  rewrite (proj2 (Z.eqb_neq _ _)) by lia.
  apply lookup_lt_is_Some.
  pose proof (Z.mod_pos_bound i (Z.of_nat (length pages)) Hlen). lia.
Qed.

Lemma first_pass_returns (pages : list (Page Content)) (elements : list Element)
    (st : TextPositions * list NotFound) :
  pages <> [] -> is_Some (first_pass pages elements st).
Proof.
  intros Hpages. revert st.
  induction elements as [|element rest IH]; intros st; cbn; [by eexists |].
  assert (Hstep : is_Some (locate_element pages st element)).
  { unfold locate_element.
    destruct (Z.ltb_spec (default 1 (e_page element) - 1) (Z.of_nat (length pages)));
      [| by eexists].
    destruct (doc_getitem_nonempty pages (default 1 (e_page element) - 1))
      as [page ->]; [done | done |]. by eexists. }
  destruct Hstep as [st1 ->]. cbn. apply IH.
Qed.

End Returns.

(** X1.  On a document with at least one page no page lookup of the first
    pass fails, whatever pages the records name: [anonymize_pdf] returns a
    result and a document. *)
Theorem anonymize_pdf_returns {Content} `{F : Fitz Content}
    (analysis_result : AnalysisResult) (doc : Document Content) :
  doc_pages doc <> [] ->
  exists result out, anonymize_pdf analysis_result doc = Some (result, out).
Proof.
  intros Hpages. unfold anonymize_pdf.
  destruct (first_pass_returns (doc_pages doc)
              (default [] (sensitive_elements analysis_result)) ([], []) Hpages)
    as [st ->].
  cbn. by do 2 eexists.
Qed.

Lemma anonymize_pdf_returns_witness :
  exists result out,
    anonymize_pdf (report [iban_element 0; john_element; iban_element 9]) titled_doc
    = Some (result, out).
Proof.
  apply (anonymize_pdf_returns
           (report [iban_element 0; john_element; iban_element 9]) titled_doc).
  discriminate.
Defined.

Section Assignments.
Context {Content : Type} `{F : Fitz Content}.

Lemma search_pairs_writes (page : Page Content) (page_num : Z)
    (to_search : list (string * string)) (text_positions : TextPositions) :
  foldl (search_pair page page_num) text_positions to_search
  = foldl (fun d kv => Py.dict_set key_eqb d kv.1 kv.2) text_positions
          (writes_of page page_num to_search).
Proof.
  unfold writes_of. revert text_positions.
  induction to_search as [|pair rest IH]; intros tp; [done |].
  cbn [foldl]. rewrite IH. clear IH.
  change (mbind ?f (pair :: rest)) with (f pair ++ mbind f rest).
  rewrite foldl_app. f_equal.
  unfold search_pair. generalize tp.
  induction (search_for page pair.1) as [|rect rects IHr]; intros tp'; [done |].
  cbn. apply IHr.
Qed.

Lemma dict_set_key_kept {V : Type} (d : list (Key * V)) (k k0 : Key) (v : V) :
  k0 ∈ d.*1 -> k0 ∈ (Py.dict_set key_eqb d k v).*1.
Proof.
  induction d as [|[k' v'] rest IH]; cbn; [by intros ?%elem_of_nil |].
  destruct (key_eqb k' k); cbn; rewrite !elem_of_cons; [tauto |].
  intros [-> | Hin]; auto.
Qed.

Lemma dict_set_key_in {V : Type} (d : list (Key * V)) (k : Key) (v : V) :
  k ∈ (Py.dict_set key_eqb d k v).*1.
Proof.
  induction d as [|[k' v'] rest IH]; cbn; [apply list_elem_of_here |].
  destruct (key_eqb k' k) eqn:Heq; cbn.
  - apply key_eqb_eq in Heq as ->. apply list_elem_of_here.
  - by apply list_elem_of_further.
Qed.

Lemma dict_set_present {V : Type} (d : list (Key * V)) (k : Key) (v : V) :
  k ∈ d.*1 -> (Py.dict_set key_eqb d k v).*1 = d.*1.
Proof.
  induction d as [|[k' v'] rest IH]; cbn; [by intros ?%elem_of_nil |].
  destruct (key_eqb k' k) eqn:Heq; cbn; [done |].
  rewrite elem_of_cons. intros [-> | Hin]; [| by rewrite IH].
  assert (key_eqb k' k' = true) by by apply key_eqb_eq. congruence.
Qed.

Lemma writes_keys (writes : list (Key * Info)) (d : TextPositions) :
  let d' := foldl (fun d kv => Py.dict_set key_eqb d kv.1 kv.2) d writes in
  (forall k, k ∈ d.*1 -> k ∈ d'.*1)
  /\ (forall k, k ∈ writes.*1 -> k ∈ d'.*1)
  /\ ((forall k, k ∈ writes.*1 -> k ∈ d.*1) -> d'.*1 = d.*1).
Proof.
  cbv zeta. revert d. induction writes as [|[k v] rest IH]; intros d; cbn.
  - split; [done |]. split; [by intros k ?%elem_of_nil | done].
  - destruct (IH (Py.dict_set key_eqb d k v)) as (Hkept & Hnew & Hsame).
    split; [| split].
    + intros k0 Hk0. by apply Hkept, dict_set_key_kept.
    + intros k0 [-> | Hk0]%elem_of_cons; [| by apply Hnew].
      apply Hkept, dict_set_key_in.
    + intros Hall. rewrite Hsame.
      * apply dict_set_present, Hall, list_elem_of_here.
      * intros k0 Hk0. apply dict_set_key_kept, Hall. by apply list_elem_of_further.
Qed.

Lemma locate_element_keys (pages : list (Page Content))
    (st st' : TextPositions * list NotFound) (element : Element) :
  locate_element pages st element = Some st' ->
  exists writes,
    (forall st0 st0', locate_element pages st0 element = Some st0' ->
       st0'.1 = foldl (fun d kv => Py.dict_set key_eqb d kv.1 kv.2) st0.1 writes)
    /\ st'.1 = foldl (fun d kv => Py.dict_set key_eqb d kv.1 kv.2) st.1 writes.
Proof.
  unfold locate_element.
  destruct (_ <? _).
  - destruct (doc_getitem pages _) as [page|]; [| done].
    cbn. intros [= <-]. eexists. split.
    + intros st0 st0' [= <-]. cbn. apply search_pairs_writes.
    + cbn. apply search_pairs_writes.
  - intros [= <-]. exists []. split; [| done]. by intros st0 st0' [= <-].
Qed.

Lemma first_pass_app (pages : list (Page Content)) (l1 l2 : list Element)
    (st : TextPositions * list NotFound) :
  first_pass pages (l1 ++ l2) st
  = first_pass pages l1 st ≫= first_pass pages l2.
Proof.
  revert st. induction l1 as [|e l1 IH]; intros st; cbn; [done |].
  destruct (locate_element pages st e); cbn; [apply IH | done].
Qed.

(** Keys are never removed, and an element that has been located leaves the
    keys as they are when it is located again. *)
Lemma first_pass_keys_after (pages : list (Page Content)) (elements : list Element)
    (element : Element) (st st' : TextPositions * list NotFound) :
  first_pass pages elements st = Some st' ->
  (forall k, k ∈ st.1.*1 -> k ∈ st'.1.*1)
  /\ (element ∈ elements ->
      forall st'', locate_element pages st' element = Some st'' ->
                   st''.1.*1 = st'.1.*1).
Proof.
  revert st. induction elements as [|e rest IH]; intros st; cbn.
  - intros [= <-]. split; [done |]. by intros ?%elem_of_nil.
  - destruct (locate_element pages st e) as [st1|] eqn:Hlocate; [| done].
    cbn. intros Hrest. destruct (IH st1 Hrest) as [Hkept Hagain].
    destruct (locate_element_keys _ _ _ _ Hlocate) as (writes & Hall & Hst1).
    destruct (writes_keys writes st.1) as (Hkept1 & Hnew1 & _).
    cbv zeta in Hkept1, Hnew1. rewrite <- Hst1 in Hkept1, Hnew1.
    split; [by auto |].
    intros [-> | Hin]%elem_of_cons; [| by auto].
    intros st'' Hagain'. rewrite (Hall _ _ Hagain').
    apply writes_keys. auto.
Qed.

End Assignments.

(** X5.  A record that is reported once more at the end of the list adds no
    entry to [text_positions]: the keys, and with them [total_replacements],
    are those of the list without the repetition. *)
Theorem repeated_record_adds_no_entry {Content} `{F : Fitz Content}
    (pages : list (Page Content)) (elements : list Element) (element : Element)
    (st st' : TextPositions * list NotFound) :
  element ∈ elements ->
  first_pass pages elements ([], []) = Some st ->
  first_pass pages (elements ++ [element]) ([], []) = Some st' ->
  st'.1.*1 = st.1.*1 /\ length st'.1 = length st.1.
Proof.
  intros Hin Hfirst. rewrite first_pass_app, Hfirst. cbn.
  destruct (locate_element pages st element) as [st1|] eqn:Hlocate; [| done].
  cbn. intros [= <-].
  destruct (first_pass_keys_after pages elements element _ _ Hfirst) as [_ Hagain].
  pose proof (Hagain Hin _ Hlocate) as Hkeys.
  split; [done |].
  by rewrite <- (length_fmap fst st1.1), Hkeys, length_fmap.
Qed.

Lemma repeated_record_adds_no_entry_witness :
  (default ([], []) (first_pass [john_page] ([john_element] ++ [john_element])
                                ([], []))).1.*1
  = (default ([], []) (first_pass [john_page] [john_element] ([], []))).1.*1
  /\ length (default ([], []) (first_pass [john_page] ([john_element] ++ [john_element])
                                          ([], []))).1
     = length (default ([], []) (first_pass [john_page] [john_element] ([], []))).1.
Proof.
  apply (repeated_record_adds_no_entry [john_page] [john_element] john_element).
  - apply list_elem_of_here.
  - vm_compute. reflexivity.
  - vm_compute. reflexivity.
Defined.

(** * Where the code departs from the specification *)

(** ** Records reported as not found *)

Section NotFoundExact.
Context {Content : Type} `{F : Fitz Content}.




End NotFoundExact.




(** ** Stored replacements *)

Lemma elements_to_search_replacements
    (element_type original_text replacement : string) (pair : string * string) :
  pair ∈ elements_to_search element_type original_text replacement ->
  pair.2 = replacement
  \/ (2 <= length (Py.split replacement))%nat
     /\ (pair.2 = Py.first (Py.split replacement)
         \/ pair.2 = Py.last (Py.split replacement)).
Proof.
  unfold elements_to_search.
  destruct (is_name_type element_type);
    [| intros ->%list_elem_of_singleton; by left].
  destruct (Nat.leb_spec 2 (length (Py.split original_text))) as [Hn|Hn];
    [| intros ->%list_elem_of_singleton; by left].
  destruct (Nat.leb_spec 2 (length (Py.split replacement))) as [Hr|Hr];
    [| intros ->%list_elem_of_singleton; by left].
  cbn [andb app]. rewrite !elem_of_cons, elem_of_nil.
  intros [-> | [-> | [-> | []]]]; cbn; auto.
Qed.

Lemma split_token_nonempty (s : string) :
  (2 <= length (Py.split s))%nat ->
  Py.first (Py.split s) <> "" /\ Py.last (Py.split s) <> "".
Proof.
  intros Hlen.
  assert (Hparts : Py.split s <> [])
    by (intros Heq; rewrite Heq in Hlen; cbn in Hlen; lia).
  pose proof (split_from_nonempty s "") as Htokens.
  rewrite Forall_forall in Htokens.
  split; apply Htokens; [by apply first_in | by apply last_in].
Qed.

(** C5, as the code has it.  Every occurrence stored in [text_positions]
    was stored for a reported record that names its page and searches its
    text, and carries that record's replacement or the first or last
    whitespace token of it, the replacement of a record without the field
    being the placeholder "XXXXX": when that record has no replacement field
    the stored text is "XXXXX", and the stored text is empty only when that
    record's replacement is the empty string.  So no stored replacement is
    empty when no record carries the empty string. *)
Theorem C5_stored_replacement {Content} `{F : Fitz Content}
    (pages : list (Page Content)) (elements : list Element)
    (st : TextPositions * list NotFound) :
  first_pass pages elements ([], []) = Some st ->
  Forall (fun entry : Key * Info =>
            exists element,
              element ∈ elements
              /\ key_page entry.1 = default 1 (e_page element) - 1
              /\ (key_text entry.1, info_replacement entry.2)
                   ∈ elements_to_search (default "Unknown" (e_type element))
                                        (default "" (e_value element))
                                        (default "XXXXX" (e_replacement element))
              /\ replaced_by element (info_replacement entry.2)
              /\ (e_replacement element = None ->
                  info_replacement entry.2 = "XXXXX")
              /\ (info_replacement entry.2 = "" ->
                  e_replacement element = Some ""))
         st.1
  /\ (Forall (fun element => e_replacement element <> Some "") elements ->
      Forall (fun entry : Key * Info => info_replacement entry.2 <> "") st.1).
Proof.
  intros Hrun.
  assert (Hentries :
            Forall (fun entry : Key * Info =>
                      exists element,
                        element ∈ elements
                        /\ key_page entry.1 = default 1 (e_page element) - 1
                        /\ (key_text entry.1, info_replacement entry.2)
                             ∈ elements_to_search
                                 (default "Unknown" (e_type element))
                                 (default "" (e_value element))
                                 (default "XXXXX" (e_replacement element))
                        /\ replaced_by element (info_replacement entry.2)
                        /\ (e_replacement element = None ->
                            info_replacement entry.2 = "XXXXX")
                        /\ (info_replacement entry.2 = "" ->
                            e_replacement element = Some ""))
                   st.1).
  { revert Hrun. apply first_pass_invariant; [constructor |].
    intros element page tp pair rect Helement _ _ Hpair _ Htp.
    unfold store_instance. apply dict_set_entries; [done |].
    exists element. cbn [fst snd info_replacement key_page key_text].
    split; [done |]. split; [done |]. split; [by destruct pair |].
    apply elements_to_search_replacements in Hpair.
    unfold replaced_by. cbv zeta.
    destruct (e_replacement element) as [replacement|] eqn:Hrepl.
    - change (default "XXXXX" (Some replacement)) with replacement in *.
      split; [tauto |]. split; [done |].
      destruct Hpair as [-> | [Hlen Htoken]]; [by intros -> |].
      destruct (split_token_nonempty _ Hlen) as [Hfirst Hlast].
      intros Hempty. destruct Htoken as [Heq | Heq]; congruence.
    - change (default "XXXXX" None) with "XXXXX" in *.
      assert (Hplace : pair.2 = "XXXXX").
      { destruct Hpair as [-> | [Hlen _]]; [done |]. vm_compute in Hlen. lia. }
      rewrite Hplace. split; [by left |]. split; [done | discriminate]. }
  split; [done |].
  intros Hnone. rewrite Forall_forall in Hentries. rewrite Forall_forall in Hnone.
  apply Forall_forall. intros entry Hentry Hempty.
  destruct (Hentries entry Hentry) as (element & Helement & _ & _ & _ & _ & Hsome).
  by apply (Hnone element Helement), Hsome.
Qed.

Lemma C5_stored_replacement_witness :
  Forall (fun entry : Key * Info => info_replacement entry.2 <> "")
         (default ([], []) (first_pass [john_page] [john_element; doe_unreplaced]
                                       ([], []))).1.
Proof.
  apply (C5_stored_replacement [john_page] [john_element; doe_unreplaced]
           (default ([], []) (first_pass [john_page] [john_element; doe_unreplaced]
                                         ([], [])))).
  - vm_compute. reflexivity.
  - repeat constructor; discriminate.
Defined.

(** A record without a replacement field is stored with "XXXXX" until a
    later record that matches the same text at the same place replaces it. *)
Example placeholder_overwritten :
  info_replacement <$>
    (default ([], []) (first_pass [john_page] [doe_unreplaced] ([], []))).1.*2
  = ["XXXXX"]
  /\ info_replacement <$>
       (default ([], []) (first_pass [john_page] [doe_unreplaced; doe_replaced]
                                     ([], []))).1.*2
     = ["Jim"].
Proof. split; vm_compute; reflexivity. Qed.

(** ** Font resolution *)





(** ** Overlays *)

Lemma overlaps_explicit {Content} `{F : Fitz Content} (line_rect seen_rect : Rect) :
  overlaps line_rect seen_rect = true <->
  rect_intersects line_rect seen_rect = true
  /\ (0 <? rect_get_area line_rect)%float = true
  /\ (0.5 <? rect_get_area (rect_and line_rect seen_rect)
             / rect_get_area line_rect)%float = true.
Proof.
  unfold overlaps, overlap_ratio. rewrite andb_true_iff.
  destruct (0 <? rect_get_area line_rect)%float.
  - tauto.
  - change (0.5 <? 0)%float with false. split; intros (? & ?); [done | tauto].
Qed.

(** C9, as the code has it.  A line with a bounding rectangle is an overlay
    when some rectangle accepted so far intersects the line's rectangle, the
    area of the line's rectangle is positive, and the area of the
    intersection of the two divided by the area of the line's rectangle
    exceeds 0.5.  An overlay is dropped and its rectangle is not recorded.
    Any other line has its rectangle recorded, and its text is emitted
    unless the text is blank. *)
Theorem C9_process_line {Content} `{F : Fitz Content}
    (page_text_parts : list string) (seen_positions : list Rect)
    (line : Line) (line_rect : Rect) :
  line_bbox line = Some line_rect ->
  let overlay :=
    exists seen_rect,
      seen_rect ∈ seen_positions
      /\ rect_intersects line_rect seen_rect = true
      /\ (0 <? rect_get_area line_rect)%float = true
      /\ (0.5 <? rect_get_area (rect_and line_rect seen_rect)
                 / rect_get_area line_rect)%float = true in
  let blank := Py.strip (line_text_of line) = "" in
  let st := process_line (page_text_parts, seen_positions) line in
  (overlay -> st = (page_text_parts, seen_positions))
  /\ (~ overlay ->
      st.2 = seen_positions ++ [line_rect]
      /\ (blank -> st.1 = page_text_parts)
      /\ (~ blank -> st.1 = page_text_parts ++ [line_text_of line])).
Proof.
  cbv zeta. intros Hbbox.
  assert (Hflag : is_overlapping line_rect seen_positions = true <->
                  exists seen_rect,
                    seen_rect ∈ seen_positions
                    /\ rect_intersects line_rect seen_rect = true
                    /\ (0 <? rect_get_area line_rect)%float = true
                    /\ (0.5 <? rect_get_area (rect_and line_rect seen_rect)
                               / rect_get_area line_rect)%float = true).
  { unfold is_overlapping. rewrite existsb_exists.
    split; intros (seen_rect & Hin & Htest); exists seen_rect.
    - apply overlaps_explicit in Htest. by rewrite list_elem_of_In.
    - rewrite <- list_elem_of_In. split; [done |]. by apply overlaps_explicit. }
  unfold process_line. rewrite Hbbox. cbn [fst snd].
  destruct (is_overlapping line_rect seen_positions) eqn:Hover.
  - split.
    + intros _. by rewrite andb_false_r.
    + intros Hno. exfalso. apply Hno. by apply Hflag.
  - split.
    + intros Hyes. apply Hflag in Hyes. congruence.
    + intros _. cbn. rewrite andb_true_r. split; [done |].
      destruct (Py.strip (line_text_of line)); cbn; split; done.
Qed.

Lemma C9_process_line_witness :
  process_line (["Statement of account"], [wide_rect]) inner_line
  = (["Statement of account"], [wide_rect])
  /\ process_line (["COPY"], [inner_rect]) wide_line
     = (["COPY"; "Statement of account"], [inner_rect; wide_rect]).
Proof.
  split.
  - apply (C9_process_line ["Statement of account"] [wide_rect] inner_line
                           inner_rect eq_refl).
    exists wide_rect. split; [apply list_elem_of_here |].
    repeat split; vm_compute; reflexivity.
  - destruct (C9_process_line ["COPY"] [inner_rect] wide_line wide_rect eq_refl)
      as [_ Hkept].
    destruct Hkept as (Hseen & _ & Htext).
    + intros (seen_rect & Hin & _ & _ & Hratio).
      apply list_elem_of_singleton in Hin as ->.
      vm_compute in Hratio. discriminate.
    + rewrite (surjective_pairing (process_line _ _)), Hseen, Htext; [done |].
      vm_compute. discriminate.
Defined.

(** ** The calls made on a page *)

Section PageCallsExplicit.
Context {Content : Type} `{F : Fitz Content}.

Lemma insert_replacement_drawn (font_map : gmap string string)
    (page : Page Content) (info : Info) :
  exists op,
    insert_replacement font_map page info = page_call page op
    /\ drawn op
       = Some ((x0 (info_rect info),
                (y0 (info_rect info) + si_size (info_span_info info) * 0.8)%float),
               info_replacement info, si_size (info_span_info info)).
Proof.
  destruct (insert_replacement_first_success font_map page info)
    as (op & Hfirst & Hcall).
  exists op. split; [done |]. revert Hfirst.
  unfold first_success, font_chain, attempt, attempt_standalone, insertion_point.
  cbn [find_first].
  destruct (font_map !! _) as [ref_name|]; cbn;
    repeat (match goal with
            | |- context [if ?b then _ else _] => destruct b
            end; cbn);
    by intros [= <-].
Qed.

Lemma stored_for_page (text_positions : TextPositions) (page_num : nat) :
  filter (fun kv : Key * Info => key_startswith_page kv.1 page_num = true) text_positions
  = filter (fun entry : Key * Info => key_page entry.1 = Z.of_nat page_num)
           text_positions.
Proof.
  apply list_filter_iff. intros [key info]. unfold key_startswith_page. cbn.
  apply Z.eqb_eq.
Qed.

Lemma insertion_loop_drawn (font_map : gmap string string) (page_num : nat)
    (text_positions : TextPositions) (page : Page Content) :
  exists inserted,
    page_ops (foldl (fun p kv =>
                       if key_startswith_page kv.1 page_num
                       then insert_replacement font_map p kv.2
                       else p)
                    page text_positions)
    = page_ops page ++ inserted
    /\ Forall2 (fun (entry : Key * Info) op =>
                  drawn op
                  = Some ((x0 (info_rect entry.2),
                           (y0 (info_rect entry.2)
                            + si_size (info_span_info entry.2) * 0.8)%float),
                          info_replacement entry.2,
                          si_size (info_span_info entry.2)))
               (filter (fun entry : Key * Info =>
                          key_page entry.1 = Z.of_nat page_num) text_positions)
               inserted.
Proof.
  rewrite <- stored_for_page. revert page.
  induction text_positions as [|[key info] rest IH]; intros page; cbn [foldl].
  - exists []. rewrite app_nil_r. split; [done | constructor].
  - rewrite filter_cons. cbn [fst snd].
    destruct (key_startswith_page key page_num) eqn:Hkey.
    + destruct (insert_replacement_drawn font_map page info) as (op & -> & Hop).
      destruct (IH (page_call page op)) as (inserted & Hops & Hall).
      exists (op :: inserted). rewrite Hops. cbn. rewrite <- app_assoc.
      split; [done |]. rewrite decide_True by (cbn; congruence).
      by constructor.
    + destruct (IH page) as (inserted & Hops & Hall).
      exists inserted. rewrite decide_False by (cbn; congruence). done.
Qed.

Lemma process_page_calls (text_positions : TextPositions) (page_num : nat)
    (page : Page Content) :
  exists inserted,
    page_ops (process_page text_positions page_num page)
    = page_ops page
      ++ (AddRedactAnnot
            <$> (info_rect
                   <$> (filter (fun entry : Key * Info =>
                                  key_page entry.1 = Z.of_nat page_num)
                               text_positions).*2))
      ++ [ApplyRedactions] ++ inserted
    /\ Forall2 (fun (entry : Key * Info) op =>
                  drawn op
                  = Some ((x0 (info_rect entry.2),
                           (y0 (info_rect entry.2)
                            + si_size (info_span_info entry.2) * 0.8)%float),
                          info_replacement entry.2,
                          si_size (info_span_info entry.2)))
               (filter (fun entry : Key * Info =>
                          key_page entry.1 = Z.of_nat page_num) text_positions)
               inserted.
Proof.
  unfold process_page.
  destruct (insertion_loop_drawn
              (build_font_map
                 (get_fonts
                    (page_call
                       (foldl (fun p rect => page_call p (AddRedactAnnot rect)) page
                              (redact_rects text_positions page_num))
                       ApplyRedactions)))
              page_num text_positions
              (page_call
                 (foldl (fun p rect => page_call p (AddRedactAnnot rect)) page
                        (redact_rects text_positions page_num))
                 ApplyRedactions))
    as (inserted & Hops & Hall).
  exists inserted. split; [| done].
  rewrite Hops. cbn. rewrite add_redact_annots_ops.
  unfold redact_rects. rewrite stored_for_page.
  by rewrite <- !app_assoc.
Qed.

Lemma first_pass_found (pages : list (Page Content)) (elements : list Element)
    (st : TextPositions * list NotFound) :
  first_pass pages elements ([], []) = Some st ->
  Forall (found_for pages elements) st.1.
Proof.
  apply (first_pass_invariant (Forall (found_for pages elements))); [constructor |].
  intros element page tp [search_text search_replacement] rect
         Helement Hlt Hpage Hpair Hrect Htp.
  unfold store_instance. apply dict_set_entries; [done |].
  exists element, page. cbn in *. repeat split; done.
Qed.

Lemma first_pass_keys_kept (pages : list (Page Content)) (elements : list Element)
    (st st' : TextPositions * list NotFound) (k : Key) :
  first_pass pages elements st = Some st' -> k ∈ st.1.*1 -> k ∈ st'.1.*1.
Proof.
  intros Hrun.
  destruct (first_pass_keys_after pages elements (mkElement None None None None)
                                  st st' Hrun) as [Hkept _].
  apply Hkept.
Qed.

(** Every hit of a search made for a reported record has its key in
    [text_positions] at the end of the first pass. *)
Lemma first_pass_hits_stored (pages : list (Page Content)) (elements : list Element)
    (st st' : TextPositions * list NotFound)
    (element : Element) (page : Page Content) (pair : string * string) (rect : Rect) :
  first_pass pages elements st = Some st' ->
  element ∈ elements ->
  default 1 (e_page element) - 1 < Z.of_nat (length pages) ->
  doc_getitem pages (default 1 (e_page element) - 1) = Some page ->
  pair ∈ elements_to_search (default "Unknown" (e_type element))
                            (default "" (e_value element))
                            (default "XXXXX" (e_replacement element)) ->
  rect ∈ search_for page pair.1 ->
  mkKey (default 1 (e_page element) - 1) pair.1 (x0 rect) (y0 rect) ∈ st'.1.*1.
Proof.
  intros Hrun Helement Hlt Hpage Hpair Hrect. revert st Hrun.
  induction elements as [|e rest IH]; intros st; [by apply elem_of_nil in Helement |].
  cbn [first_pass].
  destruct (locate_element pages st e) as [st1|] eqn:Hlocate; [| done].
  cbn [mbind option_bind]. intros Hrest.
  apply elem_of_cons in Helement as [<- | Hin]; [| by apply (IH Hin st1)].
  apply (first_pass_keys_kept _ _ _ _ _ Hrest).
  revert Hlocate. unfold locate_element.
  rewrite (proj2 (Z.ltb_lt _ _)) by done. rewrite Hpage. cbn.
  intros [= <-]. cbn. rewrite search_pairs_writes.
  apply writes_keys. unfold writes_of.
  apply list_elem_of_fmap.
  exists (mkKey (default 1 (e_page element) - 1) pair.1 (x0 rect) (y0 rect),
          mkInfo rect pair.2 (probe_style page rect)).
  split; [done |].
  apply list_elem_of_bind. exists pair. split; [| done].
  apply list_elem_of_bind. exists rect. split; [| done].
  apply list_elem_of_singleton. done.
Qed.

End PageCallsExplicit.

(** X20.  The calls a run makes on a page are, in this order: one
    [add_redact_annot] for the rectangle of every stored occurrence whose
    key names the page, in the order of [text_positions]; the commit
    [apply_redactions]; and one insertion for each of these occurrences, in
    the same order, which draws the occurrence's replacement in its probed
    size at (rect.x0, rect.y0 + 0.8 * size).  Every rectangle returned by a
    search made for a record that names the page has such an occurrence:
    one stored with the searched text for a rectangle of that search with
    the same top-left corner. *)
Theorem page_blanked_then_replaced {Content} `{F : Fitz Content}
    (analysis_result result : AnalysisResult) (doc out : Document Content)
    (page_num : nat) (page : Page Content) :
  anonymize_pdf analysis_result doc = Some (result, out) ->
  doc_pages doc !! page_num = Some page ->
  let elements := default [] (sensitive_elements analysis_result) in
  exists st page' inserted,
    first_pass (doc_pages doc) elements ([], []) = Some st
    /\ doc_pages out !! page_num = Some page'
    /\ let stored :=
         filter (fun entry : Key * Info => key_page entry.1 = Z.of_nat page_num)
                st.1 in
       page_ops page'
       = page_ops page ++ (AddRedactAnnot <$> (info_rect <$> stored.*2))
         ++ [ApplyRedactions] ++ inserted
       /\ Forall2 (fun (entry : Key * Info) op =>
                     drawn op
                     = Some ((x0 (info_rect entry.2),
                              (y0 (info_rect entry.2)
                               + si_size (info_span_info entry.2) * 0.8)%float),
                             info_replacement entry.2,
                             si_size (info_span_info entry.2)))
                  stored inserted
       /\ forall element pair rect,
            element ∈ elements ->
            default 1 (e_page element) = Z.of_nat page_num + 1 ->
            pair ∈ elements_to_search (default "Unknown" (e_type element))
                                      (default "" (e_value element))
                                      (default "XXXXX" (e_replacement element)) ->
            rect ∈ search_for page pair.1 ->
            exists entry,
              entry ∈ stored
              /\ key_text entry.1 = pair.1
              /\ info_rect entry.2 ∈ search_for page pair.1
              /\ x0 (info_rect entry.2) = x0 rect
              /\ y0 (info_rect entry.2) = y0 rect.
Proof.
  cbv zeta. unfold anonymize_pdf. intros Hrun Hpage.
  destruct (first_pass _ _ _) as [st|] eqn:Hfirst; [| done].
  cbn in Hrun. injection Hrun as _ <-. cbn [doc_pages].
  destruct (process_page_calls st.1 page_num page) as (inserted & Hops & Hall).
  exists st, (process_page st.1 page_num page), inserted.
  split; [done |]. split; [by rewrite second_pass_lookup, Hpage |].
  split; [done |]. split; [done |].
  intros element pair rect Helement Hnames Hpair Hrect.
  assert (Hlt : Z.of_nat page_num < Z.of_nat (length (doc_pages doc)))
    by (apply lookup_lt_Some in Hpage; lia).
  destruct (doc_getitem_in_range (doc_pages doc) (Z.of_nat page_num))
    as (page0 & Hlook & Hget); [lia |].
  rewrite Nat2Z.id, Hpage in Hlook. injection Hlook as <-.
  assert (Hnum : default 1 (e_page element) - 1 = Z.of_nat page_num) by lia.
  pose proof (first_pass_hits_stored _ _ _ _ element page pair rect Hfirst Helement)
    as Hkey.
  rewrite Hnum in Hkey. specialize (Hkey Hlt Hget Hpair Hrect).
  apply list_elem_of_fmap in Hkey as ([key info] & Hkeyeq & Hentry).
  cbn in Hkeyeq. subst key.
  pose proof (first_pass_found _ _ _ Hfirst) as Hfound.
  rewrite Forall_forall in Hfound.
  destruct (Hfound _ Hentry)
    as (element' & page1 & _ & _ & _ & Hget' & _ & Hrect' & Hx & Hy & _).
  cbn in Hget', Hrect', Hx, Hy. rewrite Hget in Hget'. injection Hget' as <-.
  exists (mkKey (Z.of_nat page_num) pair.1 (x0 rect) (y0 rect), info).
  split; [by apply list_elem_of_filter |]. cbn. auto.
Qed.

Lemma page_blanked_then_replaced_witness :
  exists page',
    doc_pages (outcome (report [john_element]) titled_doc).2 !! 0%nat = Some page'
    /\ page_ops page'
       = [AddRedactAnnot john_rect; AddRedactAnnot john_first;
          AddRedactAnnot doe_rect; ApplyRedactions;
          InsertText (72, 69.6)%float "Jane Smith" "F1" 12 0;
          InsertText (72, 69.6)%float "Jane" "F1" 12 0;
          InsertText (98, 69.6)%float "Smith" "F1" 12 0].
Proof.
  destruct (page_blanked_then_replaced
              (report [john_element])
              (outcome (report [john_element]) titled_doc).1 titled_doc
              (outcome (report [john_element]) titled_doc).2 0%nat john_page)
    as (st & page' & inserted & Hfirst & Hout & Hops & Hall & Hhits).
  - vm_compute. reflexivity.
  - reflexivity.
  - exists page'. split; [exact Hout |].
    vm_compute in Hout. injection Hout as <-. vm_compute. reflexivity.
Defined.

